(** * amocrm_leads: the daily revenue report (amocrm.py)

    A shallow embedding of [get_leads_from_amocrm], [daily_report_revenue],
    [send_to_telegram] and [main], and the properties of the report
    pipeline stated over it.

    Modelling conventions.
    - A JSON document as Python sees it after [Response.json()] is a
      [value]: None, bool, int, str, list or dict.  JSON numbers with a
      fraction (Python floats) are modelled in the price of a deal only
      (module [Fractions]).
    - A Python dict that is only read (a deal, a JSON object) is an
      association list with first-match lookup.  The dict that
      [daily_report_revenue] builds keeps Python's insertion order,
      because [main] iterates over it.
    - An exception is a value of [exn]; a computation that may raise
      returns a [result].
    - The system clock is a function from the number of readings made so
      far to the time read (seconds since the epoch); the local time zone
      is a UTC offset that may depend on the instant.
    - A price written with a fraction is a binary64 float.  The module
      [Fractions] embeds the loop over the deals once more for deals with
      such prices, where totals are Python numbers (int or float); on deals
      without fractions it agrees with the loop over [value]. *)

From Stdlib Require Import ZArith List String Ascii Bool Lia Permutation.
From Stdlib Require Import DecimalString.
From Stdlib Require PrimFloat SpecFloat FloatOps.
Import ListNotations.
Import PrimFloat.

Local Open Scope string_scope.
Local Open Scope Z_scope.

#[local] Set Warnings "-register-all".
#[local] Set Warnings "-inexact-float".

(** ** Python values *)

Inductive value : Type :=
| VNone
| VBool (b : bool)
| VInt (z : Z)
| VStr (s : string)
| VList (items : list value)
| VDict (entries : list (string * value)).

(** ** Exceptions and results *)

Inductive request_exception : Type :=
| HTTPError
| ConnectionError
| Timeout
| RequestException.

Inductive exn : Type :=
| KeyError
| TypeError
| AttributeError
| ValueError
| JSONDecodeError
| EnvError
| RequestsError (e : request_exception)
| OtherError
| OverflowError
| OSError.

Inductive result (A : Type) : Type :=
| Ok (a : A)
| Raise (e : exn).

Arguments Ok {A} a.
Arguments Raise {A} e.

Definition bind {A B : Type} (c : result A) (k : A -> result B) : result B :=
  match c with
  | Ok a => k a
  | Raise e => Raise e
  end.

Notation "x <- c ;; k" := (bind c (fun x => k))
  (at level 61, c at next level, right associativity).

(** ** Reading Python objects *)

Definition b2z (b : bool) : Z := if b then 1 else 0.

(** [bool(v)]: the truth value Python gives to [v] in an [if]. *)
Definition truthy (v : value) : bool :=
  match v with
  | VNone => false
  | VBool b => b
  | VInt z => negb (z =? 0)
  | VStr s => negb (s =? "")%string
  | VList items => match items with [] => false | _ => true end
  | VDict entries => match entries with [] => false | _ => true end
  end.

Fixpoint find_key (k : string) (entries : list (string * value)) : option value :=
  match entries with
  | [] => None
  | (k', v) :: rest => if (k' =? k)%string then Some v else find_key k rest
  end.

(** [d.get(k, default)] *)
Definition dict_get (entries : list (string * value)) (k : string) (default : value) : value :=
  match find_key k entries with
  | Some v => v
  | None => default
  end.

(** [obj[k]] with a string key: KeyError on a dict without the key,
    TypeError on anything that is not a dict. *)
Definition subscript (obj : value) (k : string) : result value :=
  match obj with
  | VDict entries =>
      match find_key k entries with
      | Some v => Ok v
      | None => Raise KeyError
      end
  | _ => Raise TypeError
  end.

Fixpoint chars (s : string) : list value :=
  match s with
  | EmptyString => []
  | String c rest => VStr (String c EmptyString) :: chars rest
  end.

(** [iter(obj)]: what a [for] loop over [obj] visits. *)
Definition iterate (obj : value) : result (list value) :=
  match obj with
  | VList items => Ok items
  | VDict entries => Ok (map (fun kv => VStr (fst kv)) entries)
  | VStr s => Ok (chars s)
  | _ => Raise TypeError
  end.

(** ** Dates *)

(** A calendar date is the number of days since 1970-01-01. *)
Definition date := Z.

Definition min_date : date := -719162.   (* 0001-01-01 *)
Definition max_date : date := 2932896.   (* 9999-12-31 *)

Definition local_day (tz : Z -> Z) (t : Z) : date := (t + tz t) / 86400.

(** Year, month and day of a day number (proleptic Gregorian calendar). *)
Definition civil (d : date) : Z * Z * Z :=
  let z := d + 719468 in
  let era := z / 146097 in
  let doe := z - era * 146097 in
  let yoe := (doe - doe / 1460 + doe / 36524 - doe / 146096) / 365 in
  let doy := doe - (365 * yoe + yoe / 4 - yoe / 100) in
  let mp := (5 * doy + 2) / 153 in
  let day := doy - (153 * mp + 2) / 5 + 1 in
  let month := if mp <? 10 then mp + 3 else mp - 9 in
  let year := yoe + era * 400 + (if month <=? 2 then 1 else 0) in
  (year, month, day).

Definition year_of (d : date) : Z :=
  let '(year, _, _) := civil d in year.

Definition time_t_min : Z := - 2 ^ 63.
Definition time_t_max : Z := 2 ^ 63 - 1.

(** [time.localtime(t)] and the date built from its fields: OverflowError
    when [t] does not fit the platform's time_t, OSError when the year does
    not fit the C field tm_year, ValueError when the year is not in
    1..9999, the local day otherwise. *)
Definition local_date (tz : Z -> Z) (t : Z) : result date :=
  if (t <? time_t_min) || (time_t_max <? t) then Raise OverflowError
  else
    let d := local_day tz t in
    let tm_year := year_of d - 1900 in
    if (tm_year <? - 2 ^ 31) || (2 ^ 31 - 1 <? tm_year) then Raise OSError
    else if (min_date <=? d) && (d <=? max_date) then Ok d
    else Raise ValueError.

(** [datetime.date.fromtimestamp(t)] for an integer [t]. *)
Definition date_fromtimestamp (tz : Z -> Z) (t : Z) : result date :=
  local_date tz t.

(** [datetime.datetime.fromtimestamp(t).date()] for an integer [t].  To
    detect a repeated hour the conversion also builds the local time of 24
    hours before and, when the UTC offset fell in between, a third one; each
    of them must be a valid date too, so the first day of the year 1 is
    refused. *)
Definition datetime_fromtimestamp (tz : Z -> Z) (t : Z) : result date :=
  d <- local_date tz t ;;
  _ <- local_date tz (t - 86400) ;;
  let transition := tz t - tz (t - 86400) in
  if transition <? 0
  then _ <- local_date tz (t + transition) ;; Ok d
  else Ok d.

(** [datetime.datetime.fromtimestamp(v).date()] for a JSON value. *)
Definition fromtimestamp_date (tz : Z -> Z) (v : value) : result date :=
  match v with
  | VInt t => datetime_fromtimestamp tz t
  | VBool b => datetime_fromtimestamp tz (b2z b)
  | _ => Raise TypeError
  end.

(** [datetime.date.today()] at the [n]-th reading of the clock. *)
Definition date_today (tz : Z -> Z) (clock : nat -> Z) (n : nat) : result date :=
  date_fromtimestamp tz (clock n).

(** ** The dict built by [daily_report_revenue] *)

(** Keys in insertion order, each with its running total. *)
Definition revenue := list (value * Z).

(** Python's [==] on the values that can be dict keys: a bool is the
    integer 0 or 1, so [True] and [1] are one key. *)
Definition key_eqb (a b : value) : bool :=
  match a, b with
  | VNone, VNone => true
  | VBool x, VBool y => Bool.eqb x y
  | VInt x, VInt y => x =? y
  | VBool x, VInt y => b2z x =? y
  | VInt x, VBool y => x =? b2z y
  | VStr x, VStr y => (x =? y)%string
  | _, _ => false
  end.

Definition hashable (v : value) : bool :=
  match v with
  | VList _ | VDict _ => false
  | _ => true
  end.

Fixpoint lookup (k : value) (m : revenue) : option Z :=
  match m with
  | [] => None
  | (k', v) :: rest => if key_eqb k' k then Some v else lookup k rest
  end.

(** [k in m]; hashing a list or a dict raises TypeError. *)
Definition contains (k : value) (m : revenue) : result bool :=
  if hashable k
  then Ok (match lookup k m with Some _ => true | None => false end)
  else Raise TypeError.

(** [m[k]] *)
Definition getitem (k : value) (m : revenue) : result Z :=
  match lookup k m with
  | Some v => Ok v
  | None => Raise KeyError
  end.

(** [m[k] = v]: an existing key keeps its place and its first key
    object, a new key goes to the end. *)
Fixpoint setitem (k : value) (v : Z) (m : revenue) : revenue :=
  match m with
  | [] => [(k, v)]
  | (k', v') :: rest =>
      if key_eqb k' k then (k', v) :: rest else (k', v') :: setitem k v rest
  end.

(** [total + price] with an int on the left. *)
Definition int_add (total : Z) (price : value) : result Z :=
  match price with
  | VInt z => Ok (total + z)
  | VBool b => Ok (total + b2z b)
  | _ => Raise TypeError
  end.

(** ** daily_report_revenue: the loop over the deals *)

Section Aggregation.

Variable tz : Z -> Z.
Variable clock : nat -> Z.

(** One iteration of [for deal in deals].  The state is the number of
    clock readings made so far and [revenue_by_manager]. *)
Definition process_deal (st : nat * revenue) (deal : value) : result (nat * revenue) :=
  let '(n, revenue_by_manager) := st in
  match deal with
  | VDict entries =>
      let created_at := dict_get entries "created_at" VNone in
      let responsible_user_id := dict_get entries "responsible_user_id" VNone in
      let price := dict_get entries "price" (VInt 0) in
      if truthy created_at && truthy responsible_user_id then
        created_date <- fromtimestamp_date tz created_at ;;
        current_date <- date_today tz clock n ;;
        if created_date =? current_date then
          present <- contains responsible_user_id revenue_by_manager ;;
          let m := if present then revenue_by_manager
                   else setitem responsible_user_id 0 revenue_by_manager in
          total <- getitem responsible_user_id m ;;
          total' <- int_add total price ;;
          Ok (S n, setitem responsible_user_id total' m)
        else Ok (S n, revenue_by_manager)
      else Ok (n, revenue_by_manager)
  | _ => Raise AttributeError
  end.

Fixpoint for_each_deal (deals : list value) (st : nat * revenue) : result (nat * revenue) :=
  match deals with
  | [] => Ok st
  | deal :: rest => st' <- process_deal st deal ;; for_each_deal rest st'
  end.

End Aggregation.

(** The aggregation of a deal list as [daily_report_revenue] performs it,
    from an empty dict; the clock readings are dropped from the result. *)
Definition aggregate (tz : Z -> Z) (clock : nat -> Z) (deals : list value) : result revenue :=
  st <- for_each_deal tz clock deals (O, []) ;; Ok (snd st).

(** ** Text of the report *)

Definition str_int (z : Z) : string := NilZero.string_of_int (Z.to_int z).

Fixpoint zeros (n : nat) : string :=
  match n with
  | O => ""
  | S k => String "0" (zeros k)
  end.

Definition zfill (width : nat) (s : string) : string :=
  zeros (width - String.length s) ++ s.

(** [str(d)] for a [datetime.date]: YYYY-MM-DD. *)
Definition str_date (d : date) : string :=
  let '(year, month, day) := civil d in
  zfill 4 (str_int year) ++ "-" ++ zfill 2 (str_int month) ++ "-" ++ zfill 2 (str_int day).

(** [str(k)] for a dict key (lists and dicts are never keys). *)
Definition str_key (k : value) : string :=
  match k with
  | VNone => "None"
  | VBool true => "True"
  | VBool false => "False"
  | VInt z => str_int z
  | VStr s => s
  | VList _ | VDict _ => ""
  end.

Definition newline : string := String (ascii_of_nat 10) EmptyString.

(** [sys.get_int_max_str_digits()]: [str] of an int with more decimal
    digits raises ValueError. *)
Definition int_max_str_digits : Z := 4300.

Definition digits (z : Z) : Z := Z.of_nat (String.length (str_int (Z.abs z))).

Definition str_allowed (z : Z) : bool := digits z <=? int_max_str_digits.

(** Whether every [{manager_id}] and [{total_revenue}] of the report can be
    formatted. *)
Definition printable (m : revenue) : bool :=
  forallb (fun entry =>
             match fst entry with
             | VInt z => str_allowed z
             | _ => true
             end && str_allowed (snd entry)) m.

Definition report_header (today : date) : string :=
  "Отчет по выручке на " ++ str_date today ++ ":" ++ newline ++ newline.

Definition report_line (entry : value * Z) : string :=
  "Менеджер ID: " ++ str_key (fst entry) ++ ", Выручка: " ++ str_int (snd entry) ++ newline.

(** The message [main] builds: the header, then [message += ...] for each
    item of [revenue.items()]. *)
Definition report_message (today : date) (m : revenue) : string :=
  fold_left (fun message entry => message ++ report_line entry) m (report_header today).

Definition error_message : string := "Не удалось получить данные по выручке.".
Definition failure_message : string := "Не удалось выполнить главную функцию.".

(** ** The outside world *)

(** config_amocrm.AmoCRM *)
Record AmoCRM : Type := { account_id : string; token : string }.

(** config_tg.TgBot and config_tg.Config *)
Record TgBot : Type := { bot_token : string; admin_ids : string }.
Record Config : Type := { tg_bot : TgBot }.

(** A [requests.Response]: its status code and what [.json()] gives
    ([None] when the body is not JSON, and [.json()] raises). *)
Record Response : Type := { status_code : Z; body : option value }.

Definition response_json (r : Response) : result value :=
  match body r with
  | Some v => Ok v
  | None => Raise JSONDecodeError
  end.

(** What [get_leads_from_amocrm] can hand to [daily_report_revenue]:
    None, a response, or (as the tests do through a mock) a plain dict. *)
Inductive fetched : Type :=
| FNone
| FResponse (r : Response)
| FDict (entries : list (string * value)).

Record World : Type := {
  load_amocrm : result AmoCRM;
  requests_get : string -> list (string * string) -> result Response;
  load_config : result Config;
  new_bot : string -> result unit;
  tz : Z -> Z;
  clock : nat -> Z
}.

(** ** get_leads_from_amocrm *)

Definition leads_url (account : string) : string :=
  "https://" ++ account ++ ".amocrm.ru/api/v4/leads".

Definition leads_headers (tok : string) : list (string * string) :=
  [("Authorization", "Bearer " ++ tok); ("Content-Type", "application/json")].

Definition get_leads_from_amocrm
    (get : string -> list (string * string) -> result Response)
    (account tok : string) : result fetched :=
  match get (leads_url account) (leads_headers tok) with
  | Ok response => Ok (FResponse response)
  | Raise (RequestsError HTTPError) => Ok FNone
  | Raise (RequestsError ConnectionError) => Ok FNone
  | Raise (RequestsError Timeout) => Ok FNone
  | Raise (RequestsError RequestException) => Ok FNone
  | Raise e => Raise e
  end.

(** ** daily_report_revenue *)

(** [isinstance(data, dict) and data.get('status_code') != 200] *)
Definition dict_status_not_200 (data : fetched) : bool :=
  match data with
  | FDict entries => negb (key_eqb (dict_get entries "status_code" VNone) (VInt 200))
  | _ => false
  end.

(** [data.json()]: only a response has the method. *)
Definition data_json (data : fetched) : result value :=
  match data with
  | FResponse r => response_json r
  | _ => Raise AttributeError
  end.

(** [data.json()['_embedded']['leads']] *)
Definition embedded_leads (data : fetched) : result value :=
  j <- data_json data ;; e <- subscript j "_embedded" ;; subscript e "leads".

(** The part of [daily_report_revenue] that follows the fetch; [n] is the
    number of clock readings made before.  Only KeyError and TypeError are
    caught around [embedded_leads]. *)
Definition revenue_of_data (tz : Z -> Z) (clock : nat -> Z) (n : nat) (data : fetched)
  : result (nat * revenue) :=
  match data with
  | FNone => Ok (n, [])
  | _ =>
      if dict_status_not_200 data then Ok (n, [])
      else
        match embedded_leads data with
        | Raise KeyError => Ok (n, [])
        | Raise TypeError => Ok (n, [])
        | Raise e => Raise e
        | Ok deals =>
            items <- iterate deals ;;
            for_each_deal tz clock items (n, [])
        end
  end.

Definition daily_report_revenue (w : World) (n : nat) : result (nat * revenue) :=
  match load_amocrm w with
  | Raise _ => Ok (n, [])
  | Ok config_amocrm =>
      match get_leads_from_amocrm (requests_get w)
              (account_id config_amocrm) (token config_amocrm) with
      | Raise _ => Ok (n, [])
      | Ok data => revenue_of_data (tz w) (clock w) n data
      end
  end.

(** ** send_to_telegram and main *)

(** A call of [bot.send_message]: the chat and the text. *)
Definition sent := (string * string)%type.

(** The configuration is loaded and the bot is built outside the [try];
    every exception of [bot.send_message] itself is caught and logged. *)
Definition send_to_telegram (w : World) (message : string) : list sent * result unit :=
  match load_config w with
  | Raise e => ([], Raise e)
  | Ok config =>
      match new_bot w (bot_token (tg_bot config)) with
      | Raise e => ([], Raise e)
      | Ok _ => ([(admin_ids (tg_bot config), message)], Ok tt)
      end
  end.

(** [if revenue:] *)
Definition nonempty (m : revenue) : bool :=
  match m with
  | [] => false
  | _ => true
  end.

(** The body of the [try] in [main]. *)
Definition main_body (w : World) : list sent * result unit :=
  match daily_report_revenue w O with
  | Raise e => ([], Raise e)
  | Ok (n, m) =>
      if nonempty m then
        match date_today (tz w) (clock w) n with
        | Raise e => ([], Raise e)
        | Ok today =>
            if printable m then send_to_telegram w (report_message today m)
            else ([], Raise ValueError)
        end
      else send_to_telegram w error_message
  end.

(** [main]: the messages handed to [bot.send_message], in order, and
    whether [main] returns or raises. *)
Definition main (w : World) : list sent * result unit :=
  match main_body w with
  | (out, Ok _) => (out, Ok tt)
  | (out, Raise _) =>
      let '(out', r) := send_to_telegram w failure_message in ((out ++ out')%list, r)
  end.

(** ** Vocabulary of the properties *)

Definition created_at_of (deal : value) : value :=
  match deal with
  | VDict entries => dict_get entries "created_at" VNone
  | _ => VNone
  end.

Definition owner_of (deal : value) : value :=
  match deal with
  | VDict entries => dict_get entries "responsible_user_id" VNone
  | _ => VNone
  end.

Definition price_of (deal : value) : value :=
  match deal with
  | VDict entries => dict_get entries "price" (VInt 0)
  | _ => VInt 0
  end.

(** The amount a deal states: its [price], 0 when the key is missing. *)
Definition amount_of (deal : value) : Z :=
  match price_of deal with
  | VInt z => z
  | VBool b => b2z b
  | _ => 0
  end.

Definition numeric (v : value) : bool :=
  match v with
  | VInt _ | VBool _ => true
  | _ => false
  end.

(** The creation date the loop derives for a deal: the local day of a
    truthy [created_at]. *)
Definition creation_date (tz : Z -> Z) (deal : value) : option date :=
  if truthy (created_at_of deal) then
    match fromtimestamp_date tz (created_at_of deal) with
    | Ok d => Some d
    | Raise _ => None
    end
  else None.

Definition created_on (tz : Z -> Z) (d : date) (deal : value) : bool :=
  match creation_date tz deal with
  | Some d' => d' =? d
  | None => false
  end.

Definition owned_by (k : value) (deal : value) : bool :=
  key_eqb (owner_of deal) k.

(** The deals created on [d] whose owner is [k]. *)
Definition deals_of (tz : Z -> Z) (d : date) (k : value) (deals : list value) : list value :=
  filter (fun deal => created_on tz d deal && owned_by k deal) deals.

Definition total (amounts : list Z) : Z := fold_right Z.add 0 amounts.

(** Every reading of the clock during the run falls on the day [d]. *)
Definition evaluation_date (tz : Z -> Z) (clock : nat -> Z) (d : date) : Prop :=
  forall n, date_today tz clock n = Ok d.

(** Extensional equality of two revenue dicts. *)
Definition same_mapping (m m' : revenue) : Prop :=
  forall k, lookup k m = lookup k m'.

(** What one deal does to the dict when the day is [d]: it raises, it is
    passed over, or it credits an amount to a key. *)
Definition outcome (tz : Z -> Z) (d : date) (deal : value) : result (option (value * Z)) :=
  match deal with
  | VDict _ =>
      if truthy (created_at_of deal) && truthy (owner_of deal) then
        created_date <- fromtimestamp_date tz (created_at_of deal) ;;
        if created_date =? d then
          if hashable (owner_of deal) then
            if numeric (price_of deal) then Ok (Some (owner_of deal, amount_of deal))
            else Raise TypeError
          else Raise TypeError
        else Ok None
      else Ok None
  | _ => Raise AttributeError
  end.

(** [if k not in m: m[k] = 0] followed by [m[k] += p]. *)
Definition credit (k : value) (p : Z) (m : revenue) : revenue :=
  match lookup k m with
  | Some v => setitem k (v + p) m
  | None => setitem k (0 + p) (setitem k 0 m)
  end.

Definition apply_outcome (o : option (value * Z)) (m : revenue) : revenue :=
  match o with
  | Some (k, p) => credit k p m
  | None => m
  end.

(** The loop with the day fixed to [d]: no clock is read. *)
Fixpoint replay (tz : Z -> Z) (d : date) (deals : list value) (m : revenue) : result revenue :=
  match deals with
  | [] => Ok m
  | deal :: rest => o <- outcome tz d deal ;; replay tz d rest (apply_outcome o m)
  end.

(** Keys in the order in which they are first seen. *)
Definition seen (ks : list value) (k : value) : bool :=
  existsb (fun k' => key_eqb k' k) ks.

Definition first_seen_from (ks : list value) (owners : list value) : list value :=
  fold_left (fun ks o => if seen ks o then ks else (ks ++ [o])%list) owners ks.

Definition first_seen (owners : list value) : list value := first_seen_from [] owners.

Fixpoint distinct (ks : list value) : Prop :=
  match ks with
  | [] => True
  | k :: rest => (forall k', In k' rest -> key_eqb k k' = false) /\ distinct rest
  end.

(** A deal that reaches the crediting branch on day [d]. *)
Definition contributes (tz : Z -> Z) (d : date) (deal : value) : bool :=
  created_on tz d deal && truthy (owner_of deal).

(** [del d[k]] on a read-only dict. *)
Definition del_key (k : string) (entries : list (string * value)) : list (string * value) :=
  filter (fun kv => negb (fst kv =? k)%string) entries.

(** A total already in the dict, joined with further amounts. *)
Definition merged (o : option Z) (amounts : list Z) : option Z :=
  match o, amounts with
  | None, [] => None
  | Some v, _ => Some (v + total amounts)
  | None, _ => Some (total amounts)
  end.

(** Whether a deal gets through an iteration on day [d] without raising. *)
Definition passes (tz : Z -> Z) (d : date) (deal : value) : bool :=
  match outcome tz d deal with
  | Ok _ => true
  | Raise _ => false
  end.


(** The lines of a text, put together. *)
Definition join (lines : list string) : string := fold_right append "" lines.

(** ** Sample data *)

Definition utc : Z -> Z := fun _ => 0.

(** 2026-11-03, and a clock that stands at 18:00 of that day. *)
Definition a_day : date := 20760.
Definition at_six (d : date) : nat -> Z := fun _ => d * 86400 + 64800.

(** A clock that alternates between the first and the last second of a day. *)
Definition first_and_last_second (d : date) : nat -> Z :=
  fun n => d * 86400 + (if Nat.even n then 0 else 86399).

Definition deal_of (created_at owner price : value) : value :=
  VDict [("created_at", created_at); ("responsible_user_id", owner); ("price", price)].

(** A deal created at noon of day [d]. *)
Definition deal_on (d : date) (owner price : Z) : value :=
  deal_of (VInt (d * 86400 + 43200)) (VInt owner) (VInt price).

Definition leads_body (deals : list value) : value :=
  VDict [("_embedded", VDict [("leads", VList deals)])].

Definition a_config : Config :=
  {| tg_bot := {| bot_token := "12345:token"; admin_ids := "777" |} |}.

(** A configured world whose HTTP request ends as [got]. *)
Definition world_getting (got : result Response) : World :=
  {| load_amocrm := Ok {| account_id := "shop"; token := "secret" |};
     requests_get := fun _ _ => got;
     load_config := Ok a_config;
     new_bot := fun _ => Ok tt;
     tz := utc;
     clock := at_six a_day |}.

(** The same world without the Telegram settings in the environment. *)
Definition world_without_telegram (got : result Response) : World :=
  {| load_amocrm := load_amocrm (world_getting got);
     requests_get := requests_get (world_getting got);
     load_config := Raise EnvError;
     new_bot := new_bot (world_getting got);
     tz := utc;
     clock := at_six a_day |}.

(** ** The configuration modules *)

(** The process environment as [env(...)] sees it once [env.read_env(path)]
    has merged the .env file into it. *)
Definition environ := string -> option string.

Module config_tg.

(** config_tg.load_config: [env('BOT_TOKEN')], then [env('ADMIN_ID')];
    a variable that is not set raises. *)
Definition load_config (env : environ) : result Config :=
  match env "BOT_TOKEN" with
  | None => Raise EnvError
  | Some tok =>
      match env "ADMIN_ID" with
      | None => Raise EnvError
      | Some admin => Ok {| tg_bot := {| bot_token := tok; admin_ids := admin |} |}
      end
  end.

End config_tg.

Module config_amocrm.

(** config_amocrm.load_amocrm: [env('ACCOUNT_ID')], then
    [env('TOKEN_AMOCRM')]. *)
Definition load_amocrm (env : environ) : result AmoCRM :=
  match env "ACCOUNT_ID" with
  | None => Raise EnvError
  | Some account =>
      match env "TOKEN_AMOCRM" with
      | None => Raise EnvError
      | Some tok => Ok {| account_id := account; token := tok |}
      end
  end.

End config_amocrm.

(** The world of a process started in the environment [env]. *)
Definition world_in (env : environ)
    (get : string -> list (string * string) -> result Response)
    (bot : string -> result unit) (zone : Z -> Z) (time : nat -> Z) : World :=
  {| load_amocrm := config_amocrm.load_amocrm env;
     requests_get := get;
     load_config := config_tg.load_config env;
     new_bot := bot;
     tz := zone;
     clock := time |}.

(** ** Further vocabulary *)

(** The value under ['_embedded']['leads'] of a JSON document, when both
    keys are there and lead to it through dicts. *)
Definition leads_in (j : value) : option value :=
  match j with
  | VDict entries =>
      match find_key "_embedded" entries with
      | Some (VDict embedded) => find_key "leads" embedded
      | _ => None
      end
  | _ => None
  end.

(** The guard [if created_at and responsible_user_id]. *)
Definition guarded (deal : value) : bool :=
  truthy (created_at_of deal) && truthy (owner_of deal).

Definition is_dict (v : value) : bool :=
  match v with
  | VDict _ => true
  | _ => false
  end.

(** A deal that no iteration gets through, whatever the day: it is not a
    dict, or it passes the guard with a [created_at] that
    [fromtimestamp] refuses. *)
Definition unreadable (tz : Z -> Z) (deal : value) : bool :=
  negb (is_dict deal) ||
  (guarded deal &&
   match fromtimestamp_date tz (created_at_of deal) with
   | Ok _ => false
   | Raise _ => true
   end).

(** A deal that every iteration gets through, whatever the day: a dict
    that fails the guard, or one with a readable [created_at], a hashable
    owner and a numeric price. *)
Definition well_formed (tz : Z -> Z) (deal : value) : bool :=
  is_dict deal &&
  (negb (guarded deal) ||
   (match fromtimestamp_date tz (created_at_of deal) with
    | Ok _ => true
    | Raise _ => false
    end && hashable (owner_of deal) && numeric (price_of deal))).

(** Every reading of the clock is a time [date.today()] accepts. *)
Definition clock_in_range (tz : Z -> Z) (clock : nat -> Z) : Prop :=
  forall n, exists d, date_today tz clock n = Ok d.

(** The sum of two optional totals. *)
Definition add_totals (a b : option Z) : option Z :=
  match a, b with
  | Some x, Some y => Some (x + y)
  | Some x, None => Some x
  | None, o => o
  end.

(** The fetch did not give a response: the CRM settings did not load, or
    [requests.get] raised. *)
Definition fetch_fails (w : World) : Prop :=
  (exists e, load_amocrm w = Raise e) \/
  (exists account e,
     load_amocrm w = Ok account /\
     requests_get w (leads_url (account_id account)) (leads_headers (token account))
     = Raise e).

(** An environment with the four variables set. *)
Definition full_env : environ :=
  fun name =>
    if (name =? "BOT_TOKEN")%string then Some "12345:token"
    else if (name =? "ADMIN_ID")%string then Some "777"
    else if (name =? "ACCOUNT_ID")%string then Some "shop"
    else if (name =? "TOKEN_AMOCRM")%string then Some "secret"
    else None.

(** [env] without the variable [name]. *)
Definition unset (name : string) (env : environ) : environ :=
  fun name' => if (name' =? name)%string then None else env name'.

(** ** Prices with a fraction *)

Module Fractions.

(** A total: a Python int, or a float once a fraction was added to it. *)
Inductive number : Type :=
| NInt (z : Z)
| NFloat (f : PrimFloat.float).

(** What [deal.get('price', 0)] returns. *)
Inductive price : Type :=
| Whole (v : value)
| Fraction (f : PrimFloat.float).

(** A deal of the leads list: the JSON object [fields], whose price is the
    float [fraction] when it is written with a fraction (the key ['price']
    of [fields] is then not looked at). *)
Record deal : Type := { fields : value; fraction : option PrimFloat.float }.

(** A deal without a fraction. *)
Definition whole (v : value) : deal := {| fields := v; fraction := None |}.

(** The dict of the totals, keys in insertion order. *)
Definition revenue := list (value * number).

Fixpoint lookup (k : value) (m : revenue) : option number :=
  match m with
  | [] => None
  | (k', v) :: rest => if key_eqb k' k then Some v else lookup k rest
  end.

Definition contains (k : value) (m : revenue) : result bool :=
  if hashable k
  then Ok (match lookup k m with Some _ => true | None => false end)
  else Raise TypeError.

Definition getitem (k : value) (m : revenue) : result number :=
  match lookup k m with
  | Some v => Ok v
  | None => Raise KeyError
  end.

Fixpoint setitem (k : value) (v : number) (m : revenue) : revenue :=
  match m with
  | [] => [(k, v)]
  | (k', v') :: rest =>
      if key_eqb k' k then (k', v) :: rest else (k', v') :: setitem k v rest
  end.

(** [float(z)]: the nearest float, ties to even; OverflowError when it is
    beyond the largest float. *)
Definition float_of_int (z : Z) : result PrimFloat.float :=
  match SpecFloat.binary_normalize FloatOps.prec FloatOps.emax z 0 false with
  | SpecFloat.S754_infinity _ => Raise OverflowError
  | x => Ok (FloatOps.SF2Prim x)
  end.

(** [total + price]: ints add exactly, an int meeting a float is converted
    first, floats add in binary64. *)
Definition add (total : number) (p : price) : result number :=
  match total, p with
  | NInt a, Whole (VInt z) => Ok (NInt (a + z))
  | NInt a, Whole (VBool b) => Ok (NInt (a + b2z b))
  | NInt a, Fraction f => x <- float_of_int a ;; Ok (NFloat (x + f)%float)
  | NFloat a, Whole (VInt z) => y <- float_of_int z ;; Ok (NFloat (a + y)%float)
  | NFloat a, Whole (VBool b) => y <- float_of_int (b2z b) ;; Ok (NFloat (a + y)%float)
  | NFloat a, Fraction f => Ok (NFloat (a + f)%float)
  | _, Whole _ => Raise TypeError
  end.

(** One iteration of [for deal in deals], as [process_deal] above, with
    the price and the totals as Python numbers. *)
Definition process_deal (tz : Z -> Z) (clock : nat -> Z)
    (st : nat * revenue) (d : deal) : result (nat * revenue) :=
  let '(n, revenue_by_manager) := st in
  match fields d with
  | VDict entries =>
      let created_at := dict_get entries "created_at" VNone in
      let responsible_user_id := dict_get entries "responsible_user_id" VNone in
      let price :=
        match fraction d with
        | Some f => Fraction f
        | None => Whole (dict_get entries "price" (VInt 0))
        end in
      if truthy created_at && truthy responsible_user_id then
        created_date <- fromtimestamp_date tz created_at ;;
        current_date <- date_today tz clock n ;;
        if created_date =? current_date then
          present <- contains responsible_user_id revenue_by_manager ;;
          let m := if present then revenue_by_manager
                   else setitem responsible_user_id (NInt 0) revenue_by_manager in
          total <- getitem responsible_user_id m ;;
          total' <- add total price ;;
          Ok (S n, setitem responsible_user_id total' m)
        else Ok (S n, revenue_by_manager)
      else Ok (n, revenue_by_manager)
  | _ => Raise AttributeError
  end.

Fixpoint for_each_deal (tz : Z -> Z) (clock : nat -> Z)
    (deals : list deal) (st : nat * revenue) : result (nat * revenue) :=
  match deals with
  | [] => Ok st
  | d :: rest => st' <- process_deal tz clock st d ;; for_each_deal tz clock rest st'
  end.

Definition aggregate (tz : Z -> Z) (clock : nat -> Z) (deals : list deal) : result revenue :=
  st <- for_each_deal tz clock deals (O, []) ;; Ok (snd st).

(** Whether the price of a deal is written without a fraction. *)
Definition no_fraction (d : deal) : bool :=
  match fraction d with
  | None => true
  | Some _ => false
  end.

(** A dict of int totals as a dict of numbers. *)
Definition lift (m : list (value * Z)) : revenue :=
  map (fun entry => (fst entry, NInt (snd entry))) m.

(** A deal of owner 1 created at noon of day [d] with the price [f]. *)
Definition deal_on (d : date) (f : PrimFloat.float) : deal :=
  {| fields := VDict [("created_at", VInt (d * 86400 + 43200));
                      ("responsible_user_id", VInt 1)];
     fraction := Some f |}.

End Fractions.

(** ** Keys *)

Lemma key_eqb_sym (a b : value) : key_eqb a b = key_eqb b a.
Proof.
  destruct a, b; simpl; try reflexivity.
  - now destruct b, b0.
  - apply Z.eqb_sym.
  - apply Z.eqb_sym.
  - apply Z.eqb_sym.
  - apply String.eqb_sym.
Qed.

Lemma key_eqb_trans (a b c : value) :
  key_eqb a b = true -> key_eqb b c = true -> key_eqb a c = true.
Proof.
  destruct a, b, c; simpl; try discriminate; try reflexivity;
    rewrite ?Bool.eqb_true_iff, ?Z.eqb_eq, ?String.eqb_eq; try congruence.
  all: unfold b2z; repeat match goal with b : bool |- _ => destruct b end;
    try reflexivity; try discriminate; lia.
Qed.

Lemma key_eqb_cong (a b c : value) :
  key_eqb a b = true -> key_eqb a c = key_eqb b c.
Proof.
  intros Hab.
  destruct (key_eqb b c) eqn:Hbc.
  - now apply key_eqb_trans with b.
  - destruct (key_eqb a c) eqn:Hac; [|reflexivity].
    rewrite <- Hbc. symmetry. apply key_eqb_trans with a; [|assumption].
    now rewrite key_eqb_sym.
Qed.

Lemma key_eqb_refl (k : value) : hashable k = true -> key_eqb k k = true.
Proof.
  destruct k; simpl; try discriminate; intros _; try reflexivity.
  - apply Bool.eqb_reflx.
  - apply Z.eqb_refl.
  - apply String.eqb_refl.
Qed.

Lemma key_eqb_hashable (a b : value) : key_eqb a b = true -> hashable b = true.
Proof. destruct a, b; simpl; try discriminate; reflexivity. Qed.

Lemma key_eqb_truthy (a b : value) : key_eqb a b = true -> truthy a = truthy b.
Proof.
  destruct a, b; simpl; try discriminate; try reflexivity;
    rewrite ?Bool.eqb_true_iff, ?Z.eqb_eq, ?String.eqb_eq; intros; subst; try reflexivity.
  all: match goal with x : bool |- _ => now destruct x end.
Qed.

(** ** The dict operations *)

Lemma lookup_cong (a b : value) (m : revenue) :
  key_eqb a b = true -> lookup a m = lookup b m.
Proof.
  intros Hab. induction m as [|[k v] rest IH]; simpl; [reflexivity|].
  rewrite (key_eqb_sym k a), (key_eqb_sym k b), (key_eqb_cong a b k Hab).
  now rewrite IH.
Qed.

Lemma lookup_setitem (k k' : value) (v : Z) (m : revenue) :
  lookup k' (setitem k v m) = if key_eqb k k' then Some v else lookup k' m.
Proof.
  induction m as [|[k0 v0] rest IH]; simpl; [reflexivity|].
  destruct (key_eqb k0 k) eqn:Hk; simpl.
  - rewrite (key_eqb_cong k0 k k' Hk). now destruct (key_eqb k k').
  - rewrite IH. destruct (key_eqb k0 k') eqn:Hk'; [|reflexivity].
    destruct (key_eqb k k') eqn:Hkk; [|reflexivity].
    assert (key_eqb k0 k = true) as Habs
      by (apply key_eqb_trans with k'; [assumption | now rewrite key_eqb_sym]).
    congruence.
Qed.

Lemma lookup_credit (k k' : value) (p : Z) (m : revenue) :
  lookup k' (credit k p m) =
  if key_eqb k k'
  then Some (match lookup k' m with Some v => v + p | None => p end)
  else lookup k' m.
Proof.
  unfold credit. destruct (key_eqb k k') eqn:Hk.
  - rewrite <- (lookup_cong k k' m Hk).
    destruct (lookup k m); rewrite !lookup_setitem, ?Hk; reflexivity.
  - destruct (lookup k m); rewrite !lookup_setitem, ?Hk; reflexivity.
Qed.

Lemma seen_lookup (k : value) (m : revenue) :
  seen (map fst m) k = match lookup k m with Some _ => true | None => false end.
Proof.
  induction m as [|[k0 v0] rest IH]; simpl; [reflexivity|].
  destruct (key_eqb k0 k); simpl; [reflexivity|exact IH].
Qed.

Lemma keys_setitem (k : value) (v : Z) (m : revenue) :
  map fst (setitem k v m) =
  if seen (map fst m) k then map fst m else (map fst m ++ [k])%list.
Proof.
  induction m as [|[k0 v0] rest IH]; simpl; [reflexivity|].
  destruct (key_eqb k0 k); simpl; [reflexivity|].
  rewrite IH. now destruct (seen (map fst rest) k).
Qed.

Lemma keys_credit (k : value) (p : Z) (m : revenue) :
  hashable k = true ->
  map fst (credit k p m) =
  if seen (map fst m) k then map fst m else (map fst m ++ [k])%list.
Proof.
  intros Hh. unfold credit. rewrite seen_lookup.
  destruct (lookup k m) eqn:Hl.
  - rewrite keys_setitem, seen_lookup, Hl. reflexivity.
  - rewrite keys_setitem, seen_lookup, lookup_setitem, (key_eqb_refl k Hh).
    rewrite keys_setitem, seen_lookup, Hl. reflexivity.
Qed.

(** ** The loop, one deal at a time *)

Lemma int_add_amount (v : Z) (deal : value) :
  int_add v (price_of deal) =
  if numeric (price_of deal) then Ok (v + amount_of deal) else Raise TypeError.
Proof. unfold amount_of. now destruct (price_of deal). Qed.

Lemma process_deal_outcome tz clock d n m deal :
  date_today tz clock n = Ok d ->
  process_deal tz clock (n, m) deal =
  (o <- outcome tz d deal ;;
   Ok (if truthy (created_at_of deal) && truthy (owner_of deal) then S n else n,
       apply_outcome o m)).
Proof.
  intros Htoday. destruct deal as [| | | | |entries]; try reflexivity.
  unfold process_deal, outcome.
  change (dict_get entries "created_at" VNone) with (created_at_of (VDict entries)).
  change (dict_get entries "responsible_user_id" VNone) with (owner_of (VDict entries)).
  change (dict_get entries "price" (VInt 0)) with (price_of (VDict entries)).
  set (deal := VDict entries).
  destruct (truthy (created_at_of deal) && truthy (owner_of deal)); [|reflexivity].
  destruct (fromtimestamp_date tz (created_at_of deal)) as [cd|e]; [|reflexivity].
  cbn [bind]. rewrite Htoday. cbn [bind].
  destruct (cd =? d); [|reflexivity].
  unfold contains. destruct (hashable (owner_of deal)) eqn:Hh; [|reflexivity].
  cbn [bind apply_outcome]. unfold credit, getitem.
  destruct (lookup (owner_of deal) m) as [v|] eqn:Hl.
  - rewrite Hl. cbn [bind]. rewrite int_add_amount.
    destruct (numeric (price_of deal)); [|reflexivity].
    cbn [bind apply_outcome]. unfold credit. now rewrite Hl.
  - rewrite lookup_setitem, (key_eqb_refl _ Hh). cbn [bind]. rewrite int_add_amount.
    destruct (numeric (price_of deal)); [|reflexivity].
    cbn [bind apply_outcome]. unfold credit. now rewrite Hl.
Qed.

Lemma for_each_deal_replay tz clock d deals :
  evaluation_date tz clock d ->
  forall n m,
    (st <- for_each_deal tz clock deals (n, m) ;; Ok (snd st)) = replay tz d deals m.
Proof.
  intros Hd. induction deals as [|deal rest IH]; intros n m; [reflexivity|].
  cbn [for_each_deal replay].
  rewrite (process_deal_outcome tz clock d n m deal (Hd n)).
  destruct (outcome tz d deal) as [o|e]; [|reflexivity].
  simpl. apply IH.
Qed.

Lemma aggregate_replay tz clock d deals :
  evaluation_date tz clock d -> aggregate tz clock deals = replay tz d deals [].
Proof. intros Hd. unfold aggregate. now apply for_each_deal_replay. Qed.

(** ** What a deal's outcome says about the deal *)

Lemma outcome_credit tz d deal k p :
  outcome tz d deal = Ok (Some (k, p)) ->
  k = owner_of deal /\ p = amount_of deal /\ created_on tz d deal = true /\
  truthy k = true /\ hashable k = true /\ numeric (price_of deal) = true.
Proof.
  unfold outcome, created_on, creation_date.
  destruct deal as [| | | | |entries]; try discriminate.
  set (deal := VDict entries).
  destruct (truthy (created_at_of deal)); cbn [andb]; [|discriminate].
  destruct (truthy (owner_of deal)) eqn:Ht; [|discriminate].
  destruct (fromtimestamp_date tz (created_at_of deal)) as [cd|e];
    cbn [bind]; [|discriminate].
  destruct (cd =? d); [|discriminate].
  destruct (hashable (owner_of deal)) eqn:Hh; [|discriminate].
  destruct (numeric (price_of deal)); [|discriminate].
  intros H. injection H as <- <-. repeat split; assumption || reflexivity.
Qed.

Lemma outcome_skip tz d deal :
  outcome tz d deal = Ok None ->
  created_on tz d deal && truthy (owner_of deal) = false.
Proof.
  unfold outcome, created_on, creation_date.
  destruct deal as [| | | | |entries]; try discriminate.
  set (deal := VDict entries).
  destruct (truthy (created_at_of deal)); cbn [andb]; [|reflexivity].
  destruct (truthy (owner_of deal)) eqn:Ht; [|intros _; apply andb_false_r].
  destruct (fromtimestamp_date tz (created_at_of deal)) as [cd|e];
    cbn [bind]; [|discriminate].
  destruct (cd =? d); [|reflexivity].
  destruct (hashable (owner_of deal)); [|discriminate].
  destruct (numeric (price_of deal)); discriminate.
Qed.

Lemma owned_by_truthy k deal :
  truthy k = true -> owned_by k deal = true -> truthy (owner_of deal) = true.
Proof.
  unfold owned_by. intros Hk Ho. now rewrite (key_eqb_truthy _ _ Ho).
Qed.

(** ** The totals the loop computes *)

Lemma merged_credit (o : option Z) (p : Z) (amounts : list Z) :
  merged (Some (match o with Some v => v + p | None => p end)) amounts =
  merged o (p :: amounts).
Proof. destruct o; simpl; f_equal; lia. Qed.

Lemma deals_of_cons tz d k deal rest :
  deals_of tz d k (deal :: rest) =
  if created_on tz d deal && owned_by k deal
  then deal :: deals_of tz d k rest
  else deals_of tz d k rest.
Proof. reflexivity. Qed.

Lemma replay_lookup tz d deals :
  forall m m' k,
    replay tz d deals m = Ok m' ->
    truthy k = true ->
    lookup k m' = merged (lookup k m) (map amount_of (deals_of tz d k deals)).
Proof.
  induction deals as [|deal rest IH]; intros m m' k Hrun Hk.
  - injection Hrun as <-. simpl. destruct (lookup k m); simpl; [f_equal; lia | reflexivity].
  - cbn [replay] in Hrun. rewrite deals_of_cons.
    destruct (outcome tz d deal) as [[[k0 p]|]|e] eqn:Ho; cbn [bind] in Hrun;
      [| |discriminate].
    + destruct (outcome_credit _ _ _ _ _ Ho) as (-> & -> & Hc & _).
      rewrite (IH _ _ k Hrun Hk). cbn [apply_outcome].
      rewrite lookup_credit, Hc. cbn [andb]. unfold owned_by.
      destruct (key_eqb (owner_of deal) k); [|reflexivity].
      cbn [map]. apply merged_credit.
    + rewrite (IH _ _ k Hrun Hk). cbn [apply_outcome].
      apply outcome_skip in Ho.
      destruct (created_on tz d deal); cbn [andb] in *; [|reflexivity].
      destruct (owned_by k deal) eqn:Hown; [|reflexivity].
      rewrite (owned_by_truthy k deal Hk Hown) in Ho. discriminate.
Qed.

(** A falsy key is never in the dict. *)
Lemma replay_falsy tz d deals :
  forall m m' k,
    replay tz d deals m = Ok m' ->
    truthy k = false ->
    lookup k m' = lookup k m.
Proof.
  induction deals as [|deal rest IH]; intros m m' k Hrun Hk.
  - now injection Hrun as <-.
  - cbn [replay] in Hrun.
    destruct (outcome tz d deal) as [[[k0 p]|]|e] eqn:Ho; cbn [bind] in Hrun;
      [| |discriminate].
    + destruct (outcome_credit _ _ _ _ _ Ho) as (_ & _ & _ & Ht & _).
      rewrite (IH _ _ k Hrun Hk). cbn [apply_outcome]. rewrite lookup_credit.
      destruct (key_eqb k0 k) eqn:Hkk; [|reflexivity].
      rewrite (key_eqb_truthy _ _ Hkk) in Ht. congruence.
    + exact (IH _ _ k Hrun Hk).
Qed.

(** ** When the loop raises *)

Lemma replay_passes tz d deals :
  forall m, (exists m', replay tz d deals m = Ok m') <-> forallb (passes tz d) deals = true.
Proof.
  induction deals as [|deal rest IH]; intros m; cbn [replay forallb].
  - split; [reflexivity | intros _; now exists m].
  - unfold passes at 1. destruct (outcome tz d deal) as [o|e]; cbn [bind andb].
    + apply IH.
    + split; [intros [m' H]; discriminate | discriminate].
Qed.

(** ** Reordering *)

Lemma Permutation_filter_value (f : value -> bool) (l l' : list value) :
  Permutation l l' -> Permutation (filter f l) (filter f l').
Proof.
  induction 1 as [|x l l' _ IH|x y l|l l' l'' _ IH1 _ IH2]; simpl.
  - constructor.
  - destruct (f x); [now constructor | exact IH].
  - destruct (f x), (f y); try apply Permutation_refl. apply perm_swap.
  - now apply Permutation_trans with (filter f l').
Qed.

Lemma total_Permutation (l l' : list Z) : Permutation l l' -> total l = total l'.
Proof.
  induction 1; simpl; lia.
Qed.

Lemma merged_Permutation (o : option Z) (l l' : list Z) :
  Permutation l l' -> merged o l = merged o l'.
Proof.
  intros Hp. pose proof (total_Permutation _ _ Hp) as Ht.
  destruct o as [v|]; simpl; [now rewrite Ht|].
  destruct l, l'; try reflexivity.
  - now apply Permutation_nil_cons in Hp.
  - apply Permutation_sym in Hp. now apply Permutation_nil_cons in Hp.
  - now rewrite Ht.
Qed.

Lemma forallb_Permutation (f : value -> bool) (l l' : list value) :
  Permutation l l' -> forallb f l = true -> forallb f l' = true.
Proof.
  intros Hp. rewrite !forallb_forall. intros H x Hx.
  apply H. apply Permutation_in with l'; [now apply Permutation_sym | exact Hx].
Qed.






(** ** Properties of the aggregation *)






Lemma aggregate_permutation tz clock d deals deals' m :
  evaluation_date tz clock d ->
  Permutation deals deals' ->
  aggregate tz clock deals = Ok m ->
  exists m', aggregate tz clock deals' = Ok m' /\ same_mapping m m'.
Proof.
  intros Hd Hp Hrun.
  rewrite !(aggregate_replay tz clock d _ Hd) in *.
  assert (forallb (passes tz d) deals' = true) as Hall.
  { apply forallb_Permutation with deals; [exact Hp|].
    apply (replay_passes tz d deals []). now exists m. }
  apply (replay_passes tz d deals' []) in Hall as [m' Hrun'].
  exists m'. split; [exact Hrun'|]. intros k.
  destruct (truthy k) eqn:Hk.
  - rewrite (replay_lookup _ _ _ _ _ k Hrun Hk), (replay_lookup _ _ _ _ _ k Hrun' Hk).
    apply merged_Permutation, Permutation_map. unfold deals_of.
    now apply Permutation_filter_value.
  - now rewrite (replay_falsy _ _ _ _ _ k Hrun Hk), (replay_falsy _ _ _ _ _ k Hrun' Hk).
Qed.

(** C8. The result depends on the clock only through the evaluation date:
    two runs over the same deals whose clock readings fall on the same day
    give the same result, whatever the time of day. *)
Theorem C8_aggregate_deterministic tz clock clock' d deals :
  evaluation_date tz clock d ->
  evaluation_date tz clock' d ->
  aggregate tz clock deals = aggregate tz clock' deals.
Proof.
  intros Hd Hd'.
  now rewrite (aggregate_replay tz clock d deals Hd), (aggregate_replay tz clock' d deals Hd').
Qed.

Lemma C8_aggregate_deterministic_witness :
  evaluation_date utc (at_six a_day) a_day /\
  evaluation_date utc (first_and_last_second a_day) a_day /\
  aggregate utc (at_six a_day) [deal_on a_day 1 1000; deal_on (a_day - 1) 2 1500] =
  aggregate utc (first_and_last_second a_day)
    [deal_on a_day 1 1000; deal_on (a_day - 1) 2 1500].
Proof.
  assert (evaluation_date utc (at_six a_day) a_day) as Hd by (intro n; reflexivity).
  assert (evaluation_date utc (first_and_last_second a_day) a_day) as Hd'.
  { intro n. unfold date_today, first_and_last_second. destruct (Nat.even n); reflexivity. }
  split; [exact Hd|]. split; [exact Hd'|].
  exact (C8_aggregate_deterministic utc _ _ a_day _ Hd Hd').
Defined.

(** ** The text of the report *)

Lemma append_assoc (a b c : string) : ((a ++ b) ++ c = a ++ (b ++ c))%string.
Proof. induction a as [|ch a IH]; simpl; [reflexivity | now rewrite IH]. Qed.

Lemma report_message_from (m : revenue) :
  forall message,
    fold_left (fun message entry => message ++ report_line entry)%string m message =
    (message ++ join (map report_line m))%string.
Proof.
  induction m as [|entry rest IH]; intros message; simpl.
  - induction message as [|ch s IHs]; simpl; [reflexivity | now rewrite <- IHs].
  - now rewrite IH, append_assoc.
Qed.

(** ** The order of the keys *)

Lemma seen_false (ks : list value) (o : value) :
  seen ks o = false -> forall k, In k ks -> key_eqb k o = false.
Proof.
  unfold seen. induction ks as [|k0 rest IH]; simpl; intros H k Hin; [contradiction|].
  apply orb_false_elim in H as [H0 Hrest].
  destruct Hin as [<-|Hin]; [exact H0 | now apply IH].
Qed.

Lemma distinct_snoc (ks : list value) (o : value) :
  distinct ks -> seen ks o = false -> distinct (ks ++ [o]).
Proof.
  induction ks as [|k rest IH]; simpl; intros Hd Hs.
  - split; [intros k' []|exact I].
  - destruct Hd as [Hk Hrest].
    apply orb_false_elim in Hs as [Hko Hs]. split.
    + intros k' Hin. apply in_app_or in Hin as [Hin|[<-|[]]]; [now apply Hk|exact Hko].
    + now apply IH.
Qed.

Lemma first_seen_from_distinct (owners : list value) :
  forall ks, distinct ks -> distinct (first_seen_from ks owners).
Proof.
  unfold first_seen_from.
  induction owners as [|o rest IH]; intros ks Hd; simpl; [exact Hd|].
  apply IH. destruct (seen ks o) eqn:Hs; [exact Hd | now apply distinct_snoc].
Qed.

Lemma replay_keys tz d deals :
  forall m m',
    replay tz d deals m = Ok m' ->
    map fst m' =
    first_seen_from (map fst m) (map owner_of (filter (contributes tz d) deals)).
Proof.
  unfold first_seen_from.
  induction deals as [|deal rest IH]; intros m m' Hrun.
  - now injection Hrun as <-.
  - cbn [replay] in Hrun. cbn [filter].
    destruct (outcome tz d deal) as [[[k p]|]|e] eqn:Ho; cbn [bind] in Hrun;
      [| |discriminate].
    + destruct (outcome_credit _ _ _ _ _ Ho) as (-> & -> & Hc & Ht & Hh & _).
      unfold contributes at 1. rewrite Hc, Ht. cbn [andb map fold_left].
      rewrite (IH _ _ Hrun). cbn [apply_outcome]. now rewrite (keys_credit _ _ _ Hh).
    + apply outcome_skip in Ho. unfold contributes at 1. rewrite Ho.
      exact (IH _ _ Hrun).
Qed.

(** ** The job *)

Lemma send_to_telegram_configured w config message :
  load_config w = Ok config ->
  new_bot w (bot_token (tg_bot config)) = Ok tt ->
  send_to_telegram w message = ([(admin_ids (tg_bot config), message)], Ok tt).
Proof. intros Hc Hb. unfold send_to_telegram. now rewrite Hc, Hb. Qed.

Lemma main_empty_revenue w config n :
  load_config w = Ok config ->
  new_bot w (bot_token (tg_bot config)) = Ok tt ->
  daily_report_revenue w O = Ok (n, []) ->
  main w = ([(admin_ids (tg_bot config), error_message)], Ok tt).
Proof.
  intros Hc Hb Hrev. unfold main, main_body. rewrite Hrev. cbn [nonempty].
  now rewrite (send_to_telegram_configured w config _ Hc Hb).
Qed.

Lemma aggregate_loop tz clock deals m :
  aggregate tz clock deals = Ok m ->
  exists n, for_each_deal tz clock deals (O, []) = Ok (n, m).
Proof.
  unfold aggregate. destruct (for_each_deal tz clock deals (O, [])) as [[n m0]|e];
    [|discriminate].
  cbn [bind snd]. intros H. injection H as ->. now exists n.
Qed.

(** The dict handed over by the test's mock is rejected on its status. *)
Lemma dict_status_not_200_is_empty tz clock n entries :
  key_eqb (dict_get entries "status_code" VNone) (VInt 200) = false ->
  revenue_of_data tz clock n (FDict entries) = Ok (n, []).
Proof. intros H. unfold revenue_of_data, dict_status_not_200. now rewrite H. Qed.

Lemma revenue_of_response tz clock n r deals :
  embedded_leads (FResponse r) = Ok (VList deals) ->
  revenue_of_data tz clock n (FResponse r) = for_each_deal tz clock deals (n, []).
Proof. intros H. unfold revenue_of_data. cbn [dict_status_not_200]. now rewrite H. Qed.

Lemma daily_report_revenue_of_leads w account r deals n :
  load_amocrm w = Ok account ->
  requests_get w (leads_url (account_id account)) (leads_headers (token account)) = Ok r ->
  embedded_leads (FResponse r) = Ok (VList deals) ->
  daily_report_revenue w n = for_each_deal (tz w) (clock w) deals (n, []).
Proof.
  intros Ha Hget Hleads. unfold daily_report_revenue, get_leads_from_amocrm.
  rewrite Ha, Hget. now apply revenue_of_response.
Qed.

Lemma daily_report_revenue_of_failed_request w account e n :
  load_amocrm w = Ok account ->
  requests_get w (leads_url (account_id account)) (leads_headers (token account))
  = Raise (RequestsError e) ->
  daily_report_revenue w n = Ok (n, []).
Proof.
  intros Ha Hget. unfold daily_report_revenue, get_leads_from_amocrm.
  rewrite Ha, Hget. now destruct e.
Qed.

Lemma main_report w config n m today :
  load_config w = Ok config ->
  new_bot w (bot_token (tg_bot config)) = Ok tt ->
  daily_report_revenue w O = Ok (n, m) ->
  nonempty m = true ->
  date_today (tz w) (clock w) n = Ok today ->
  printable m = true ->
  main w = ([(admin_ids (tg_bot config), report_message today m)], Ok tt).
Proof.
  intros Hc Hb Hrev Hm Htoday Hp. unfold main, main_body.
  rewrite Hrev, Hm, Htoday, Hp.
  now rewrite (send_to_telegram_configured w config _ Hc Hb).
Qed.

Lemma main_unprintable w config n m today :
  load_config w = Ok config ->
  new_bot w (bot_token (tg_bot config)) = Ok tt ->
  daily_report_revenue w O = Ok (n, m) ->
  nonempty m = true ->
  date_today (tz w) (clock w) n = Ok today ->
  printable m = false ->
  main w = ([(admin_ids (tg_bot config), failure_message)], Ok tt).
Proof.
  intros Hc Hb Hrev Hm Htoday Hp. unfold main, main_body.
  rewrite Hrev, Hm, Htoday, Hp.
  now rewrite (send_to_telegram_configured w config _ Hc Hb).
Qed.

(** C3 (amended). When the fetch gives deals whose aggregation is not
    empty and whose owner ids and totals [str] can format, the message sent
    is the header naming the report date followed by one line per owner; no
    owner has two lines, and the lines follow the order in which the owners
    entered the dict, which is the order of each owner's first contributing
    deal (they are not sorted by owner id). *)
Theorem C3_report_lines_in_insertion_order w config account r deals d m :
  load_config w = Ok config ->
  new_bot w (bot_token (tg_bot config)) = Ok tt ->
  load_amocrm w = Ok account ->
  requests_get w (leads_url (account_id account)) (leads_headers (token account)) = Ok r ->
  embedded_leads (FResponse r) = Ok (VList deals) ->
  evaluation_date (tz w) (clock w) d ->
  aggregate (tz w) (clock w) deals = Ok m ->
  nonempty m = true ->
  printable m = true ->
  main w = ([(admin_ids (tg_bot config),
              (report_header d ++ join (map report_line m))%string)], Ok tt) /\
  map fst m = first_seen (map owner_of (filter (contributes (tz w) d) deals)) /\
  distinct (map fst m).
Proof.
  intros Hc Hb Ha Hget Hleads Hd Hagg Hm Hp.
  destruct (aggregate_loop _ _ _ _ Hagg) as [n Hloop].
  rewrite (aggregate_replay _ _ d deals Hd) in Hagg.
  pose proof (replay_keys _ _ _ _ _ Hagg) as Hkeys.
  split; [|split].
  - rewrite <- report_message_from.
    apply (main_report w config n m d Hc Hb); [|exact Hm|apply Hd|exact Hp].
    now rewrite (daily_report_revenue_of_leads w account r deals O Ha Hget Hleads).
  - exact Hkeys.
  - rewrite Hkeys. apply first_seen_from_distinct. exact I.
Qed.

Lemma C3_report_lines_in_insertion_order_witness :
  main (world_getting (Ok {| status_code := 200;
          body := Some (leads_body
                   [deal_on a_day 2 1000; deal_on a_day 1 1500; deal_on a_day 2 30]) |}))
  = ([("777", (report_header a_day ++
                join (map report_line [(VInt 2, 1030); (VInt 1, 1500)]))%string)], Ok tt) /\
  map fst [(VInt 2, 1030); (VInt 1, 1500)] =
    first_seen (map owner_of (filter (contributes utc a_day)
      [deal_on a_day 2 1000; deal_on a_day 1 1500; deal_on a_day 2 30])) /\
  distinct (map fst [(VInt 2, 1030); (VInt 1, 1500)]).
Proof.
  apply (C3_report_lines_in_insertion_order
           (world_getting (Ok {| status_code := 200;
              body := Some (leads_body
                       [deal_on a_day 2 1000; deal_on a_day 1 1500; deal_on a_day 2 30]) |}))
           a_config {| account_id := "shop"; token := "secret" |}
           {| status_code := 200;
              body := Some (leads_body
                       [deal_on a_day 2 1000; deal_on a_day 1 1500; deal_on a_day 2 30]) |}
           [deal_on a_day 2 1000; deal_on a_day 1 1500; deal_on a_day 2 30]
           a_day [(VInt 2, 1030); (VInt 1, 1500)]);
    try reflexivity.
  intro n. reflexivity.
Defined.

(** C3 fails as stated: when the first deal of the day belongs to owner 2
    and the next to owner 1, the report lists owner 2 before owner 1; the
    same mapping built in the other order gives a different text. *)
Lemma C3_counterexample :
  main (world_getting (Ok {| status_code := 200;
          body := Some (leads_body [deal_on a_day 2 1000; deal_on a_day 1 1500]) |}))
  = ([("777",
       "Отчет по выручке на 2026-11-03:" ++ newline ++ newline ++
       "Менеджер ID: 2, Выручка: 1000" ++ newline ++
       "Менеджер ID: 1, Выручка: 1500" ++ newline)%string], Ok tt) /\
  same_mapping [(VInt 2, 1000); (VInt 1, 1500)] [(VInt 1, 1500); (VInt 2, 1000)] /\
  report_message a_day [(VInt 2, 1000); (VInt 1, 1500)] <>
  report_message a_day [(VInt 1, 1500); (VInt 2, 1000)].
Proof.
  split; [reflexivity|]. split.
  - intros k. destruct k as [| b | z | s | items | entries]; try reflexivity.
    + now destruct b.
    + cbn [lookup key_eqb].
      destruct (Z.eqb_spec 2 z), (Z.eqb_spec 1 z); subst; try reflexivity; lia.
  - intros H. vm_compute in H. discriminate H.
Qed.

(** C4 (amended). When the Telegram configuration loads and the bot can be
    built, every run of [main] hands exactly one message to
    [bot.send_message]: the revenue report, the notice that no revenue data
    could be obtained, or the notice that [main] failed. *)
Theorem C4_one_notification_when_telegram_is_configured w config :
  load_config w = Ok config ->
  new_bot w (bot_token (tg_bot config)) = Ok tt ->
  exists message,
    main w = ([(admin_ids (tg_bot config), message)], Ok tt) /\
    (message = error_message \/ message = failure_message \/
     exists today m, nonempty m = true /\ message = report_message today m).
Proof.
  intros Hc Hb. unfold main, main_body.
  destruct (daily_report_revenue w O) as [[n m]|e].
  - destruct (nonempty m) eqn:Hm.
    + destruct (date_today (tz w) (clock w) n) as [today|e];
        [destruct (printable m)|].
      * rewrite (send_to_telegram_configured w config _ Hc Hb).
        exists (report_message today m). split; [reflexivity|].
        right. right. now exists today, m.
      * rewrite (send_to_telegram_configured w config _ Hc Hb).
        exists failure_message. split; [reflexivity|]. right. now left.
      * rewrite (send_to_telegram_configured w config _ Hc Hb).
        exists failure_message. split; [reflexivity|]. right. now left.
    + rewrite (send_to_telegram_configured w config _ Hc Hb).
      exists error_message. split; [reflexivity|]. now left.
  - rewrite (send_to_telegram_configured w config _ Hc Hb).
    exists failure_message. split; [reflexivity|]. right. now left.
Qed.

Lemma C4_one_notification_witness :
  load_config (world_getting (Raise OtherError)) = Ok a_config /\
  new_bot (world_getting (Raise OtherError)) (bot_token (tg_bot a_config)) = Ok tt /\
  exists message,
    main (world_getting (Raise OtherError))
    = ([(admin_ids (tg_bot a_config), message)], Ok tt) /\
    (message = error_message \/ message = failure_message \/
     exists today m, nonempty m = true /\ message = report_message today m).
Proof.
  split; [reflexivity|]. split; [reflexivity|].
  apply (C4_one_notification_when_telegram_is_configured
           (world_getting (Raise OtherError)) a_config); reflexivity.
Defined.

(** C4 fails as stated: [send_to_telegram] loads the Telegram settings
    before its [try]; when they are missing, the report is not sent, the
    handler's notice is not sent either, and [main] raises. *)
Lemma C4_counterexample :
  main (world_without_telegram
          (Ok {| status_code := 200; body := Some (leads_body [deal_on a_day 1 1000]) |}))
  = ([], Raise EnvError).
Proof. reflexivity. Qed.

(** C5. The status code of a response is never looked at: the check
    applies to a plain dict only.  A response with status 500 whose body
    holds today's deal is aggregated and reported, and a response 204 with
    an empty body makes [daily_report_revenue] raise instead of returning
    the empty dict. *)
Theorem C5_response_status_is_ignored :
  (forall tz clock n r status,
     revenue_of_data tz clock n (FResponse r) =
     revenue_of_data tz clock n (FResponse {| status_code := status; body := body r |})) /\
  daily_report_revenue
    (world_getting (Ok {| status_code := 500;
                          body := Some (leads_body [deal_on a_day 1 1000]) |})) O
  = Ok (1%nat, [(VInt 1, 1000)]) /\
  main (world_getting (Ok {| status_code := 500;
                             body := Some (leads_body [deal_on a_day 1 1000]) |}))
  = ([("777", report_message a_day [(VInt 1, 1000)])], Ok tt) /\
  daily_report_revenue (world_getting (Ok {| status_code := 204; body := None |})) O
  = Raise JSONDecodeError /\
  main (world_getting (Ok {| status_code := 204; body := None |}))
  = ([("777", failure_message)], Ok tt).
Proof.
  split; [|repeat split; reflexivity].
  intros tz clock n r status. reflexivity.
Qed.

(** C6 (amended). When the fetch succeeds and the aggregation is empty, the
    job sends the notice that no revenue data could be obtained; it sends
    the very same text when the fetch fails with a request exception.  That
    text differs only from the notice sent when [main] itself fails. *)
Theorem C6_empty_and_failed_fetch_send_the_same_notice w w' config account account' r deals e :
  load_config w = Ok config ->
  new_bot w (bot_token (tg_bot config)) = Ok tt ->
  load_config w' = Ok config ->
  new_bot w' (bot_token (tg_bot config)) = Ok tt ->
  load_amocrm w = Ok account ->
  requests_get w (leads_url (account_id account)) (leads_headers (token account)) = Ok r ->
  embedded_leads (FResponse r) = Ok (VList deals) ->
  aggregate (tz w) (clock w) deals = Ok [] ->
  load_amocrm w' = Ok account' ->
  requests_get w' (leads_url (account_id account')) (leads_headers (token account'))
  = Raise (RequestsError e) ->
  main w = ([(admin_ids (tg_bot config), error_message)], Ok tt) /\
  main w' = ([(admin_ids (tg_bot config), error_message)], Ok tt) /\
  error_message <> failure_message.
Proof.
  intros Hc Hb Hc' Hb' Ha Hget Hleads Hagg Ha' Hget'. split; [|split].
  - destruct (aggregate_loop _ _ _ _ Hagg) as [n Hloop].
    apply (main_empty_revenue w config n Hc Hb).
    now rewrite (daily_report_revenue_of_leads w account r deals O Ha Hget Hleads).
  - apply (main_empty_revenue w' config O Hc' Hb').
    exact (daily_report_revenue_of_failed_request w' account' e O Ha' Hget').
  - intros H. vm_compute in H. discriminate H.
Qed.

Lemma C6_same_notice_witness :
  main (world_getting (Ok {| status_code := 200; body := Some (leads_body []) |}))
  = ([(admin_ids (tg_bot a_config), error_message)], Ok tt) /\
  main (world_getting (Raise (RequestsError ConnectionError)))
  = ([(admin_ids (tg_bot a_config), error_message)], Ok tt) /\
  error_message <> failure_message.
Proof.
  apply (C6_empty_and_failed_fetch_send_the_same_notice
           (world_getting (Ok {| status_code := 200; body := Some (leads_body []) |}))
           (world_getting (Raise (RequestsError ConnectionError)))
           a_config
           {| account_id := "shop"; token := "secret" |}
           {| account_id := "shop"; token := "secret" |}
           {| status_code := 200; body := Some (leads_body []) |}
           [] ConnectionError); reflexivity.
Defined.

(** C6 fails as stated: an empty deal list and a failed fetch produce the
    same message, character for character. *)
Lemma C6_counterexample :
  exists text,
    main (world_getting (Ok {| status_code := 200; body := Some (leads_body []) |}))
    = ([("777", text)], Ok tt) /\
    main (world_getting (Raise (RequestsError ConnectionError)))
    = ([("777", text)], Ok tt).
Proof. exists error_message. split; reflexivity. Qed.

Lemma get_leads_from_amocrm_cases get account tok :
  match get (leads_url account) (leads_headers tok) with
  | Ok response => get_leads_from_amocrm get account tok = Ok (FResponse response)
  | Raise (RequestsError _) => get_leads_from_amocrm get account tok = Ok FNone
  | Raise e => get_leads_from_amocrm get account tok = Raise e
  end.
Proof.
  unfold get_leads_from_amocrm.
  destruct (get (leads_url account) (leads_headers tok)) as [response|e];
    [reflexivity|].
  destruct e as [| | | | | |r| | |]; try reflexivity. now destruct r.
Qed.

(** C10 (amended). For each request exception (HTTP error, connection error,
    timeout or any other request exception) [get_leads_from_amocrm] returns
    None instead of raising, and a response that was received is returned
    as it is, whatever its status code; an exception of [requests.get] that
    is not a request exception is not caught and leaves the function. *)
Theorem C10_get_leads_from_amocrm get account tok :
  (forall e,
     get (leads_url account) (leads_headers tok) = Raise (RequestsError e) ->
     get_leads_from_amocrm get account tok = Ok FNone) /\
  (forall response,
     get (leads_url account) (leads_headers tok) = Ok response ->
     get_leads_from_amocrm get account tok = Ok (FResponse response)) /\
  (forall e,
     get (leads_url account) (leads_headers tok) = Raise e ->
     (forall r, e <> RequestsError r) ->
     get_leads_from_amocrm get account tok = Raise e).
Proof.
  pose proof (get_leads_from_amocrm_cases get account tok) as H.
  split; [|split].
  - intros e He. now rewrite He in H.
  - intros response Hr. now rewrite Hr in H.
  - intros e He Hother. rewrite He in H.
    destruct e as [| | | | | |r| | |]; try exact H. now destruct (Hother r).
Qed.

Lemma C10_get_leads_from_amocrm_witness :
  get_leads_from_amocrm (fun _ _ => Raise (RequestsError Timeout)) "shop" "secret"
  = Ok FNone /\
  get_leads_from_amocrm (fun _ _ => Ok {| status_code := 404; body := None |})
    "shop" "secret"
  = Ok (FResponse {| status_code := 404; body := None |}) /\
  get_leads_from_amocrm (fun _ _ => Raise ValueError) "shop" "secret"
  = Raise ValueError.
Proof.
  split; [|split].
  - apply (proj1 (C10_get_leads_from_amocrm
                    (fun _ _ => Raise (RequestsError Timeout)) "shop" "secret") Timeout).
    reflexivity.
  - apply (proj1 (proj2 (C10_get_leads_from_amocrm
                    (fun _ _ => Ok {| status_code := 404; body := None |})
                    "shop" "secret"))).
    reflexivity.
  - apply (proj2 (proj2 (C10_get_leads_from_amocrm
                    (fun _ _ => Raise ValueError) "shop" "secret"))).
    + reflexivity.
    + intros r H. discriminate H.
Defined.

(** C10 fails as stated: an exception of [requests.get] outside the
    hierarchy of request exceptions goes through the function and reaches
    the caller. *)
Lemma C10_counterexample :
  get_leads_from_amocrm (fun _ _ => Raise OtherError) "shop" "secret" = Raise OtherError.
Proof. reflexivity. Qed.

(** ** Deals with a falsy field *)

Lemma find_key_del_key (k : string) (entries : list (string * value)) :
  find_key k (del_key k entries) = None.
Proof.
  induction entries as [|[k0 v0] rest IH]; simpl; [reflexivity|].
  destruct (k0 =? k)%string eqn:Hk; simpl; [exact IH|]. now rewrite Hk.
Qed.

Lemma process_deal_skips tz clock st deal :
  truthy (created_at_of deal) && truthy (owner_of deal) = false ->
  (exists entries, deal = VDict entries) ->
  process_deal tz clock st deal = Ok st.
Proof.
  intros Hf [entries ->]. destruct st as [n m]. unfold process_deal.
  change (dict_get entries "created_at" VNone) with (created_at_of (VDict entries)).
  change (dict_get entries "responsible_user_id" VNone) with (owner_of (VDict entries)).
  now rewrite Hf.
Qed.

Lemma for_each_deal_app tz clock before after :
  forall st,
    for_each_deal tz clock (before ++ after) st =
    (st' <- for_each_deal tz clock before st ;; for_each_deal tz clock after st').
Proof.
  induction before as [|deal rest IH]; intros st; [reflexivity|].
  cbn [app for_each_deal].
  destruct (process_deal tz clock st deal) as [st'|e]; [|reflexivity].
  cbn [bind]. apply IH.
Qed.

Lemma process_deal_falsy tz clock n m deal n' m' k :
  process_deal tz clock (n, m) deal = Ok (n', m') ->
  truthy k = false ->
  lookup k m' = lookup k m.
Proof.
  intros Hstep Hk.
  destruct (date_today tz clock n) as [d|e] eqn:Htoday.
  - rewrite (process_deal_outcome tz clock d n m deal Htoday) in Hstep.
    destruct (outcome tz d deal) as [[[k0 p]|]|x] eqn:Ho; cbn [bind] in Hstep;
      [| |discriminate]; injection Hstep as _ <-; [|reflexivity].
    destruct (outcome_credit _ _ _ _ _ Ho) as (_ & _ & _ & Ht & _).
    cbn [apply_outcome]. rewrite lookup_credit.
    destruct (key_eqb k0 k) eqn:Hkk; [|reflexivity].
    rewrite (key_eqb_truthy _ _ Hkk) in Ht. congruence.
  - destruct deal as [| | | | |entries]; try discriminate.
    unfold process_deal in Hstep.
    destruct (truthy (dict_get entries "created_at" VNone)
              && truthy (dict_get entries "responsible_user_id" VNone)).
    + destruct (fromtimestamp_date tz (dict_get entries "created_at" VNone));
        cbn [bind] in Hstep; [|discriminate].
      rewrite Htoday in Hstep. discriminate.
    + now injection Hstep as _ <-.
Qed.

Lemma for_each_deal_falsy tz clock deals k :
  truthy k = false ->
  forall n m n' m',
    for_each_deal tz clock deals (n, m) = Ok (n', m') ->
    lookup k m' = lookup k m.
Proof.
  intros Hk. induction deals as [|deal rest IH]; intros n m n' m' Hrun.
  - now injection Hrun as _ <-.
  - cbn [for_each_deal] in Hrun.
    destruct (process_deal tz clock (n, m) deal) as [[n1 m1]|e] eqn:Hstep;
      [|discriminate].
    cbn [bind] in Hrun.
    rewrite (IH _ _ _ _ Hrun). exact (process_deal_falsy _ _ _ _ _ _ _ _ Hstep Hk).
Qed.

(** C9. A deal whose [created_at] or [responsible_user_id] is present but
    falsy (0, the empty string, False, None, an empty list or dict) leaves
    the dict and the clock untouched, as the same deal without that key
    does; dropping it from the deal list does not change the result; and no
    falsy owner id, 0 in particular, is ever a key of the result. *)
Theorem C9_falsy_fields_skip_the_deal tz clock entries field :
  field = "created_at" \/ field = "responsible_user_id" ->
  truthy (dict_get entries field VNone) = false ->
  (forall st, process_deal tz clock st (VDict entries) = Ok st) /\
  (forall st, process_deal tz clock st (VDict (del_key field entries)) = Ok st) /\
  (forall before after,
     aggregate tz clock (before ++ VDict entries :: after) =
     aggregate tz clock (before ++ after)) /\
  (forall deals m k,
     aggregate tz clock deals = Ok m -> truthy k = false -> lookup k m = None).
Proof.
  intros Hfield Hfalsy.
  assert (forall st, process_deal tz clock st (VDict entries) = Ok st) as Hskip.
  { intros st. apply process_deal_skips; [|now exists entries].
    cbn [created_at_of owner_of].
    destruct Hfield as [-> | ->]; rewrite Hfalsy; [reflexivity|apply andb_false_r]. }
  split; [exact Hskip|]. split; [|split].
  - intros st. apply process_deal_skips; [|now eexists].
    cbn [created_at_of owner_of]. unfold dict_get at 1 2.
    destruct Hfield as [-> | ->]; rewrite find_key_del_key;
      [reflexivity|apply andb_false_r].
  - intros before after. unfold aggregate. rewrite !for_each_deal_app.
    destruct (for_each_deal tz clock before (O, [])) as [st|e]; [|reflexivity].
    cbn [bind for_each_deal]. now rewrite Hskip.
  - intros deals m k Hrun Hk. unfold aggregate in Hrun.
    destruct (for_each_deal tz clock deals (O, [])) as [[n m0]|e] eqn:Hloop;
      [|discriminate].
    cbn [bind snd] in Hrun. injection Hrun as <-.
    now rewrite (for_each_deal_falsy tz clock deals k Hk _ _ _ _ Hloop).
Qed.

Lemma C9_falsy_fields_skip_the_deal_witness :
  ("responsible_user_id" = "created_at" \/ "responsible_user_id" = "responsible_user_id") /\
  truthy (dict_get [("created_at", VInt (a_day * 86400)); ("responsible_user_id", VInt 0);
                    ("price", VInt 1000)] "responsible_user_id" VNone) = false /\
  aggregate utc (at_six a_day)
    [deal_on a_day 1 5; deal_of (VInt (a_day * 86400)) (VInt 0) (VInt 1000)]
  = aggregate utc (at_six a_day) [deal_on a_day 1 5].
Proof.
  split; [now right|]. split; [reflexivity|].
  exact (proj1 (proj2 (proj2
    (C9_falsy_fields_skip_the_deal utc (at_six a_day)
       [("created_at", VInt (a_day * 86400)); ("responsible_user_id", VInt 0);
        ("price", VInt 1000)]
       "responsible_user_id" (or_intror eq_refl) eq_refl)))
    [deal_on a_day 1 5] []).
Defined.

(** ** The scenarios of test.py *)

(** test_daily_report_revenue_success *)
Example test_daily_report_revenue_success :
  daily_report_revenue
    (world_getting (Ok {| status_code := 200;
        body := Some (leads_body [deal_on a_day 1 1000; deal_on (a_day - 1) 2 1500]) |})) O
  = Ok (2%nat, [(VInt 1, 1000)]).
Proof. reflexivity. Qed.

(** test_daily_report_revenue_no_data *)
Example test_daily_report_revenue_no_data :
  revenue_of_data utc (at_six a_day) O FNone = Ok (O, []).
Proof. reflexivity. Qed.

(** test_daily_report_revenue_status_code_not_200 *)
Example test_daily_report_revenue_status_code_not_200 :
  revenue_of_data utc (at_six a_day) O (FDict [("status_code", VInt 400)]) = Ok (O, []).
Proof. now apply dict_status_not_200_is_empty. Qed.

(** test_main *)
Example test_main :
  main (world_getting (Ok {| status_code := 200;
          body := Some (leads_body [deal_on a_day 1 1000]) |}))
  = ([("777",
       "Отчет по выручке на 2026-11-03:" ++ newline ++ newline ++
       "Менеджер ID: 1, Выручка: 1000" ++ newline)%string], Ok tt).
Proof. reflexivity. Qed.

(** ** The configuration and the job *)

Lemma load_config_cases env :
  match config_tg.load_config env with
  | Ok config =>
      env "BOT_TOKEN" = Some (bot_token (tg_bot config)) /\
      env "ADMIN_ID" = Some (admin_ids (tg_bot config))
  | Raise e => e = EnvError /\ (env "BOT_TOKEN" = None \/ env "ADMIN_ID" = None)
  end.
Proof.
  unfold config_tg.load_config.
  destruct (env "BOT_TOKEN"); [|now auto].
  destruct (env "ADMIN_ID"); simpl; auto.
Qed.

Lemma load_amocrm_cases env :
  match config_amocrm.load_amocrm env with
  | Ok account =>
      env "ACCOUNT_ID" = Some (account_id account) /\
      env "TOKEN_AMOCRM" = Some (token account)
  | Raise e => e = EnvError /\ (env "ACCOUNT_ID" = None \/ env "TOKEN_AMOCRM" = None)
  end.
Proof.
  unfold config_amocrm.load_amocrm.
  destruct (env "ACCOUNT_ID"); [|now auto].
  destruct (env "TOKEN_AMOCRM"); simpl; auto.
Qed.

Lemma send_to_telegram_unavailable w e :
  load_config w = Raise e \/
  (exists config, load_config w = Ok config /\
                  new_bot w (bot_token (tg_bot config)) = Raise e) ->
  forall message, send_to_telegram w message = ([], Raise e).
Proof.
  intros [H|(config & Hc & Hb)] message; unfold send_to_telegram.
  - now rewrite H.
  - now rewrite Hc, Hb.
Qed.

Lemma main_unavailable w e :
  (forall message, send_to_telegram w message = ([], Raise e)) ->
  main w = ([], Raise e).
Proof.
  intros Hsend. unfold main, main_body.
  destruct (daily_report_revenue w O) as [[n m]|x].
  - destruct (nonempty m).
    + destruct (date_today (tz w) (clock w) n); [destruct (printable m)|];
        rewrite ?Hsend; reflexivity.
    + now rewrite !Hsend.
  - now rewrite Hsend.
Qed.

(** X3. When BOT_TOKEN or ADMIN_ID is not set, a run of [main] sends no
    message at all and ends by raising the configuration error, whatever
    the CRM answers. *)
Theorem X3_main_without_telegram_variables env get bot zone time :
  env "BOT_TOKEN" = None \/ env "ADMIN_ID" = None ->
  main (world_in env get bot zone time) = ([], Raise EnvError).
Proof.
  intros Hmissing. apply main_unavailable. apply send_to_telegram_unavailable.
  left. cbn [load_config world_in].
  pose proof (load_config_cases env) as H.
  destruct (config_tg.load_config env) as [config|e].
  - destruct H as [Ht Ha], Hmissing as [Hm|Hm]; congruence.
  - now destruct H as [-> _].
Qed.

Lemma X3_main_without_telegram_variables_witness :
  (unset "ADMIN_ID" full_env "BOT_TOKEN" = None \/
   unset "ADMIN_ID" full_env "ADMIN_ID" = None) /\
  main (world_in (unset "ADMIN_ID" full_env)
          (fun _ _ => Ok {| status_code := 200;
                            body := Some (leads_body [deal_on a_day 1 1000]) |})
          (fun _ => Ok tt) utc (at_six a_day))
  = ([], Raise EnvError).
Proof.
  split; [now right|].
  apply X3_main_without_telegram_variables. now right.
Defined.

(** X4. When [Bot(token=...)] refuses the token, a run of [main] sends no
    message and ends by raising the bot's error: the handler of [main]
    calls [send_to_telegram] again and fails the same way. *)
Theorem X4_main_with_refused_token w config e :
  load_config w = Ok config ->
  new_bot w (bot_token (tg_bot config)) = Raise e ->
  main w = ([], Raise e).
Proof.
  intros Hc Hb. apply main_unavailable. apply send_to_telegram_unavailable.
  right. now exists config.
Qed.

Lemma X4_main_with_refused_token_witness :
  main (world_in full_env (fun _ _ => Raise (RequestsError Timeout))
          (fun _ => Raise ValueError) utc (at_six a_day))
  = ([], Raise ValueError).
Proof.
  apply (X4_main_with_refused_token _
           {| tg_bot := {| bot_token := "12345:token"; admin_ids := "777" |} |});
    reflexivity.
Defined.

Lemma daily_report_revenue_fetch_fails w n :
  fetch_fails w -> daily_report_revenue w n = Ok (n, []).
Proof.
  intros [[e He]|(account & e & Ha & Hget)]; unfold daily_report_revenue.
  - now rewrite He.
  - rewrite Ha.
    pose proof (get_leads_from_amocrm_cases (requests_get w)
                  (account_id account) (token account)) as H.
    rewrite Hget in H.
    destruct e as [| | | | | |r| | |]; try now rewrite H.
Qed.

(** X5. Whatever goes wrong before a response is there (the CRM settings
    do not load, or [requests.get] raises anything, a request exception or
    not), [daily_report_revenue] raises nothing, reads no clock and returns
    the empty dict, and [main] sends the notice that no revenue data could
    be obtained. *)
Theorem X5_failed_fetch_gives_empty_report w config :
  load_config w = Ok config ->
  new_bot w (bot_token (tg_bot config)) = Ok tt ->
  fetch_fails w ->
  (forall n, daily_report_revenue w n = Ok (n, [])) /\
  main w = ([(admin_ids (tg_bot config), error_message)], Ok tt).
Proof.
  intros Hc Hb Hfail. split.
  - intros n. now apply daily_report_revenue_fetch_fails.
  - apply (main_empty_revenue w config O Hc Hb).
    now apply daily_report_revenue_fetch_fails.
Qed.

Lemma X5_failed_fetch_gives_empty_report_witness :
  fetch_fails (world_getting (Raise OtherError)) /\
  (forall n, daily_report_revenue (world_getting (Raise OtherError)) n = Ok (n, [])) /\
  main (world_getting (Raise OtherError)) = ([("777", error_message)], Ok tt).
Proof.
  assert (fetch_fails (world_getting (Raise OtherError))) as Hfail.
  { right. exists {| account_id := "shop"; token := "secret" |}, OtherError.
    split; reflexivity. }
  split; [exact Hfail|].
  apply (X5_failed_fetch_gives_empty_report (world_getting (Raise OtherError)) a_config);
    [reflexivity | reflexivity | exact Hfail].
Defined.

(** X6. When ACCOUNT_ID or TOKEN_AMOCRM is not set while the Telegram side
    works, [main] sends the notice that no revenue data could be obtained
    to ADMIN_ID, and the outcome does not depend on what an HTTP request
    would have returned. *)
Theorem X6_main_without_crm_variables env get bot zone time tok admin :
  env "BOT_TOKEN" = Some tok ->
  env "ADMIN_ID" = Some admin ->
  bot tok = Ok tt ->
  env "ACCOUNT_ID" = None \/ env "TOKEN_AMOCRM" = None ->
  main (world_in env get bot zone time) = ([(admin, error_message)], Ok tt).
Proof.
  intros Ht Ha Hbot Hmissing.
  apply (main_empty_revenue _ {| tg_bot := {| bot_token := tok; admin_ids := admin |} |} O).
  - cbn [load_config world_in]. unfold config_tg.load_config. now rewrite Ht, Ha.
  - exact Hbot.
  - apply daily_report_revenue_fetch_fails. left. cbn [load_amocrm world_in].
    pose proof (load_amocrm_cases env) as H.
    destruct (config_amocrm.load_amocrm env) as [account|e].
    + destruct H as [H1 H2], Hmissing as [Hm|Hm]; congruence.
    + now exists e.
Qed.

Lemma X6_main_without_crm_variables_witness :
  main (world_in (unset "TOKEN_AMOCRM" full_env)
          (fun _ _ => Ok {| status_code := 200;
                            body := Some (leads_body [deal_on a_day 1 1000]) |})
          (fun _ => Ok tt) utc (at_six a_day))
  = ([("777", error_message)], Ok tt).
Proof.
  apply (X6_main_without_crm_variables _ _ _ _ _ "12345:token" "777");
    try reflexivity.
  now right.
Defined.

(** ** The body of the response *)

Lemma embedded_leads_json (status : Z) (j : value) :
  embedded_leads (FResponse {| status_code := status; body := Some j |}) =
  match leads_in j with
  | Some deals => Ok deals
  | None =>
      match j with
      | VDict entries =>
          match find_key "_embedded" entries with
          | None => Raise KeyError
          | Some (VDict embedded) => Raise KeyError
          | Some _ => Raise TypeError
          end
      | _ => Raise TypeError
      end
  end.
Proof.
  unfold embedded_leads, data_json, response_json, leads_in. cbn [body bind].
  destruct j as [| | | | |entries]; try reflexivity.
  cbn [subscript]. destruct (find_key "_embedded" entries) as [e|]; [|reflexivity].
  cbn [bind]. now destruct e.
Qed.

Lemma revenue_of_json tz clock n status j :
  revenue_of_data tz clock n (FResponse {| status_code := status; body := Some j |}) =
  match leads_in j with
  | Some deals => items <- iterate deals ;; for_each_deal tz clock items (n, [])
  | None => Ok (n, [])
  end.
Proof.
  unfold revenue_of_data. cbn [dict_status_not_200].
  rewrite embedded_leads_json.
  destruct (leads_in j) as [deals|]; [reflexivity|].
  destruct j as [| | | | |entries]; try reflexivity.
  destruct (find_key "_embedded" entries) as [e|]; [|reflexivity].
  now destruct e.
Qed.

(** X7. For a response whose body is JSON without a ['leads'] entry under a
    dict ['_embedded'] of a dict document (a key is missing, or the
    document or ['_embedded'] is not a dict), [daily_report_revenue] returns
    the empty dict without raising and without reading the clock, and
    [main] sends the notice that no revenue data could be obtained. *)
Theorem X7_body_without_leads_gives_empty_dict w config account r j :
  load_config w = Ok config ->
  new_bot w (bot_token (tg_bot config)) = Ok tt ->
  load_amocrm w = Ok account ->
  requests_get w (leads_url (account_id account)) (leads_headers (token account)) = Ok r ->
  body r = Some j ->
  leads_in j = None ->
  (forall n, daily_report_revenue w n = Ok (n, [])) /\
  main w = ([(admin_ids (tg_bot config), error_message)], Ok tt).
Proof.
  intros Hc Hb Ha Hget Hbody Hleads.
  assert (forall n, daily_report_revenue w n = Ok (n, [])) as Hrev.
  { intros n. unfold daily_report_revenue, get_leads_from_amocrm. rewrite Ha, Hget.
    destruct r as [status b]. cbn [body] in Hbody. subst b.
    now rewrite revenue_of_json, Hleads. }
  split; [exact Hrev|].
  exact (main_empty_revenue w config O Hc Hb (Hrev O)).
Qed.

Lemma X7_body_without_leads_witness :
  (forall n,
     daily_report_revenue
       (world_getting (Ok {| status_code := 401;
                             body := Some (VDict [("title", VStr "Unauthorized")]) |})) n
     = Ok (n, [])) /\
  main (world_getting (Ok {| status_code := 401;
                             body := Some (VDict [("title", VStr "Unauthorized")]) |}))
  = ([("777", error_message)], Ok tt).
Proof.
  apply (X7_body_without_leads_gives_empty_dict
           (world_getting (Ok {| status_code := 401;
                                 body := Some (VDict [("title", VStr "Unauthorized")]) |}))
           a_config {| account_id := "shop"; token := "secret" |}
           {| status_code := 401; body := Some (VDict [("title", VStr "Unauthorized")]) |}
           (VDict [("title", VStr "Unauthorized")]));
    reflexivity.
Defined.

(** X8. When ['leads'] is not a list, no revenue is ever reported: None, a
    bool or a number makes the [for] loop raise TypeError (outside the
    [try]), a non-empty string or dict makes the first [deal.get] raise
    AttributeError, and only an empty string or dict passes, with the
    empty dict as result. *)
Theorem X8_leads_that_is_not_a_list tz clock n status j deals :
  leads_in j = Some deals ->
  (forall items, deals <> VList items) ->
  revenue_of_data tz clock n (FResponse {| status_code := status; body := Some j |}) =
  match deals with
  | VStr EmptyString => Ok (n, [])
  | VDict [] => Ok (n, [])
  | VStr _ => Raise AttributeError
  | VDict _ => Raise AttributeError
  | _ => Raise TypeError
  end.
Proof.
  intros Hleads Hnot. rewrite revenue_of_json, Hleads.
  destruct deals as [| b | z | s | items | entries]; try reflexivity.
  - now destruct s.
  - now destruct (Hnot items).
  - now destruct entries.
Qed.

Lemma X8_leads_that_is_not_a_list_witness :
  revenue_of_data utc (at_six a_day) O
    (FResponse {| status_code := 200;
                  body := Some (VDict [("_embedded", VDict [("leads", VNone)])]) |})
  = Raise TypeError.
Proof.
  apply (X8_leads_that_is_not_a_list utc (at_six a_day) O 200
           (VDict [("_embedded", VDict [("leads", VNone)])]) VNone).
  - reflexivity.
  - intros items H. discriminate H.
Defined.

(** ** More on the loop over the deals *)

Lemma well_formed_outcome tz d deal :
  well_formed tz deal = true -> exists o, outcome tz d deal = Ok o.
Proof.
  unfold well_formed, guarded, outcome.
  destruct deal as [| | | | |entries]; try discriminate.
  cbn [is_dict andb]. set (deal := VDict entries).
  destruct (truthy (created_at_of deal) && truthy (owner_of deal)); cbn [negb orb];
    [|intros _; now eexists].
  destruct (fromtimestamp_date tz (created_at_of deal)) as [cd|e]; [|discriminate].
  cbn [bind andb]. intros H. apply andb_prop in H as [-> ->].
  destruct (cd =? d); now eexists.
Qed.

Lemma process_deal_unreadable tz clock st deal :
  unreadable tz deal = true -> exists e, process_deal tz clock st deal = Raise e.
Proof.
  destruct st as [n m]. unfold unreadable, guarded.
  destruct deal as [| | | | |entries]; try (intros _; now eexists).
  unfold process_deal. cbn [is_dict negb orb].
  change (dict_get entries "created_at" VNone) with (created_at_of (VDict entries)).
  change (dict_get entries "responsible_user_id" VNone) with (owner_of (VDict entries)).
  set (deal := VDict entries).
  destruct (truthy (created_at_of deal) && truthy (owner_of deal)); [|discriminate].
  destruct (fromtimestamp_date tz (created_at_of deal)) as [cd|e]; [discriminate|].
  intros _. now exists e.
Qed.

Lemma for_each_deal_unreadable tz clock deals deal :
  In deal deals ->
  unreadable tz deal = true ->
  forall st, exists e, for_each_deal tz clock deals st = Raise e.
Proof.
  intros Hin Hbad. induction deals as [|deal0 rest IH]; [contradiction|].
  intros st. cbn [for_each_deal].
  destruct Hin as [->|Hin].
  - destruct (process_deal_unreadable tz clock st deal Hbad) as [e ->]. now exists e.
  - destruct (process_deal tz clock st deal0) as [st'|e]; [|now exists e].
    cbn [bind]. now apply IH.
Qed.

Lemma process_deal_reads tz clock n m deal n' m' :
  process_deal tz clock (n, m) deal = Ok (n', m') ->
  n' = if guarded deal then S n else n.
Proof.
  intros Hstep. unfold guarded.
  destruct (date_today tz clock n) as [d|e] eqn:Htoday.
  - rewrite (process_deal_outcome tz clock d n m deal Htoday) in Hstep.
    destruct (outcome tz d deal) as [o|x]; cbn [bind] in Hstep; [|discriminate].
    now injection Hstep as <- _.
  - destruct deal as [| | | | |entries]; try discriminate.
    unfold process_deal in Hstep. cbn [created_at_of owner_of].
    destruct (truthy (dict_get entries "created_at" VNone)
              && truthy (dict_get entries "responsible_user_id" VNone)).
    + destruct (fromtimestamp_date tz (dict_get entries "created_at" VNone));
        cbn [bind] in Hstep; [|discriminate].
      rewrite Htoday in Hstep. discriminate.
    + now injection Hstep as <- _.
Qed.

Lemma replay_app tz d before after :
  forall m,
    replay tz d (before ++ after) m =
    (m' <- replay tz d before m ;; replay tz d after m').
Proof.
  induction before as [|deal rest IH]; intros m; [reflexivity|].
  cbn [app replay]. destruct (outcome tz d deal) as [o|e]; [|reflexivity].
  cbn [bind]. apply IH.
Qed.

Lemma total_app (a b : list Z) : total (a ++ b) = total a + total b.
Proof. induction a as [|x a IH]; simpl; [reflexivity|]. rewrite IH. lia. Qed.

Lemma merged_app (a b : list Z) :
  merged None (a ++ b) = add_totals (merged None a) (merged None b).
Proof.
  destruct a as [|x a].
  - simpl. now destruct (merged None b).
  - change (merged None ((x :: a) ++ b)) with (Some (total ((x :: a) ++ b))).
    change (merged None (x :: a)) with (Some (total (x :: a))).
    rewrite total_app. destruct b as [|y b]; simpl; f_equal; lia.
Qed.

Lemma first_seen_from_length (owners : list value) :
  forall ks, (List.length ks <= List.length (first_seen_from ks owners))%nat.
Proof.
  unfold first_seen_from.
  induction owners as [|o rest IH]; intros ks; simpl; [lia|].
  destruct (seen ks o).
  - apply IH.
  - eapply Nat.le_trans; [|apply IH]. rewrite List.length_app. simpl. lia.
Qed.

Lemma first_seen_nil (owners : list value) : first_seen owners = [] -> owners = [].
Proof.
  destruct owners as [|o rest]; [reflexivity|].
  unfold first_seen, first_seen_from. simpl. intros H.
  pose proof (first_seen_from_length rest [o]) as Hlen.
  unfold first_seen_from in Hlen. rewrite H in Hlen. simpl in Hlen. lia.
Qed.

Lemma well_formed_aggregate tz clock deals :
  clock_in_range tz clock ->
  forallb (well_formed tz) deals = true ->
  exists m, aggregate tz clock deals = Ok m.
Proof.
  intros Hclock Hwf.
  assert (forall st, exists st', for_each_deal tz clock deals st = Ok st') as Hloop.
  { induction deals as [|deal rest IH]; intros st; [now exists st|].
    cbn [forallb] in Hwf. apply andb_prop in Hwf as [Hdeal Hrest].
    destruct st as [n m]. destruct (Hclock n) as [d Hd].
    cbn [for_each_deal]. rewrite (process_deal_outcome tz clock d n m deal Hd).
    destruct (well_formed_outcome tz d deal Hdeal) as [o ->]. cbn [bind].
    now apply IH. }
  destruct (Hloop (O, [])) as [[n m] Hrun]. exists m.
  unfold aggregate. now rewrite Hrun.
Qed.

Lemma main_failure w config e :
  load_config w = Ok config ->
  new_bot w (bot_token (tg_bot config)) = Ok tt ->
  daily_report_revenue w O = Raise e ->
  main w = ([(admin_ids (tg_bot config), failure_message)], Ok tt).
Proof.
  intros Hc Hb Hrev. unfold main, main_body. rewrite Hrev.
  now rewrite (send_to_telegram_configured w config _ Hc Hb).
Qed.

(** X10. One entry of the fetched ['leads'] list that is not a dict, or
    that passes the guard with a [created_at] which [fromtimestamp]
    refuses (a string, a list, a dict, a time outside the years 1..9999),
    makes [daily_report_revenue] raise whatever the other deals and the
    clock are; nothing is skipped, no revenue is reported and [main] sends
    the failure notice. *)
Theorem X10_unreadable_deal_fails_the_report w config account r deals deal :
  load_config w = Ok config ->
  new_bot w (bot_token (tg_bot config)) = Ok tt ->
  load_amocrm w = Ok account ->
  requests_get w (leads_url (account_id account)) (leads_headers (token account)) = Ok r ->
  embedded_leads (FResponse r) = Ok (VList deals) ->
  In deal deals ->
  unreadable (tz w) deal = true ->
  (exists e, daily_report_revenue w O = Raise e) /\
  main w = ([(admin_ids (tg_bot config), failure_message)], Ok tt).
Proof.
  intros Hc Hb Ha Hget Hleads Hin Hbad.
  destruct (for_each_deal_unreadable (tz w) (clock w) deals deal Hin Hbad (O, []))
    as [e Hloop].
  assert (daily_report_revenue w O = Raise e) as Hrev
    by now rewrite (daily_report_revenue_of_leads w account r deals O Ha Hget Hleads).
  split; [now exists e|].
  exact (main_failure w config e Hc Hb Hrev).
Qed.

Lemma X10_unreadable_deal_witness :
  (exists e,
     daily_report_revenue
       (world_getting (Ok {| status_code := 200;
          body := Some (leads_body
                   [deal_on a_day 1 1000;
                    deal_of (VStr "2026-11-03") (VInt 2) (VInt 5)]) |})) O
     = Raise e) /\
  main (world_getting (Ok {| status_code := 200;
          body := Some (leads_body
                   [deal_on a_day 1 1000;
                    deal_of (VStr "2026-11-03") (VInt 2) (VInt 5)]) |}))
  = ([("777", failure_message)], Ok tt).
Proof.
  apply (X10_unreadable_deal_fails_the_report
           (world_getting (Ok {| status_code := 200;
              body := Some (leads_body
                       [deal_on a_day 1 1000;
                        deal_of (VStr "2026-11-03") (VInt 2) (VInt 5)]) |}))
           a_config {| account_id := "shop"; token := "secret" |}
           {| status_code := 200;
              body := Some (leads_body
                       [deal_on a_day 1 1000;
                        deal_of (VStr "2026-11-03") (VInt 2) (VInt 5)]) |}
           [deal_on a_day 1 1000; deal_of (VStr "2026-11-03") (VInt 2) (VInt 5)]
           (deal_of (VStr "2026-11-03") (VInt 2) (VInt 5)));
    try reflexivity.
  right. now left.
Defined.

(** X11. A response whose body is not JSON makes [daily_report_revenue]
    raise the decoding error, whatever the status code: the [except] around
    [data.json()] names KeyError and TypeError only.  [main] then sends the
    failure notice. *)
Theorem X11_body_that_is_not_json w config account r :
  load_config w = Ok config ->
  new_bot w (bot_token (tg_bot config)) = Ok tt ->
  load_amocrm w = Ok account ->
  requests_get w (leads_url (account_id account)) (leads_headers (token account)) = Ok r ->
  body r = None ->
  (forall n, daily_report_revenue w n = Raise JSONDecodeError) /\
  main w = ([(admin_ids (tg_bot config), failure_message)], Ok tt).
Proof.
  intros Hc Hb Ha Hget Hbody.
  assert (forall n, daily_report_revenue w n = Raise JSONDecodeError) as Hrev.
  { intros n. unfold daily_report_revenue, get_leads_from_amocrm. rewrite Ha, Hget.
    unfold revenue_of_data, embedded_leads, data_json, response_json.
    cbn [dict_status_not_200]. now rewrite Hbody. }
  split; [exact Hrev|].
  exact (main_failure w config _ Hc Hb (Hrev O)).
Qed.

Lemma X11_body_that_is_not_json_witness :
  (forall n,
     daily_report_revenue (world_getting (Ok {| status_code := 200; body := None |})) n
     = Raise JSONDecodeError) /\
  main (world_getting (Ok {| status_code := 200; body := None |}))
  = ([("777", failure_message)], Ok tt).
Proof.
  apply (X11_body_that_is_not_json
           (world_getting (Ok {| status_code := 200; body := None |}))
           a_config {| account_id := "shop"; token := "secret" |}
           {| status_code := 200; body := None |});
    reflexivity.
Defined.

Lemma aggregate_of_concatenation tz clock d deals1 deals2 m1 m2 :
  evaluation_date tz clock d ->
  aggregate tz clock deals1 = Ok m1 ->
  aggregate tz clock deals2 = Ok m2 ->
  exists m,
    aggregate tz clock (deals1 ++ deals2) = Ok m /\
    forall k, lookup k m = add_totals (lookup k m1) (lookup k m2).
Proof.
  intros Hd H1 H2. rewrite !(aggregate_replay tz clock d _ Hd) in *.
  assert (forallb (passes tz d) (deals1 ++ deals2) = true) as Hall.
  { rewrite forallb_app.
    rewrite (proj1 (replay_passes tz d deals1 [])) by now exists m1.
    rewrite (proj1 (replay_passes tz d deals2 [])) by now exists m2.
    reflexivity. }
  apply (replay_passes tz d (deals1 ++ deals2) []) in Hall as [m Hrun].
  exists m. split; [exact Hrun|]. intros k.
  destruct (truthy k) eqn:Hk.
  - rewrite (replay_lookup _ _ _ _ _ k Hrun Hk), (replay_lookup _ _ _ _ _ k H1 Hk),
      (replay_lookup _ _ _ _ _ k H2 Hk).
    cbn [lookup]. unfold deals_of. rewrite filter_app, map_app. apply merged_app.
  - now rewrite (replay_falsy _ _ _ _ _ k Hrun Hk), (replay_falsy _ _ _ _ _ k H1 Hk),
      (replay_falsy _ _ _ _ _ k H2 Hk).
Qed.

(** X13. The dict returned is empty exactly when no deal of the list
    reaches the crediting branch, i.e. no deal has a truthy owner and a
    creation date equal to the evaluation date. *)
Theorem X13_empty_result_iff_no_deal_of_the_day tz clock d deals m :
  evaluation_date tz clock d ->
  aggregate tz clock deals = Ok m ->
  (m = [] <-> forall deal, In deal deals -> contributes tz d deal = false).
Proof.
  intros Hd Hrun. rewrite (aggregate_replay tz clock d deals Hd) in Hrun.
  pose proof (replay_keys _ _ _ _ _ Hrun) as Hkeys. cbn [map] in Hkeys.
  fold (first_seen (map owner_of (filter (contributes tz d) deals))) in Hkeys.
  split.
  - intros -> deal Hin. cbn [map] in Hkeys. symmetry in Hkeys.
    apply first_seen_nil in Hkeys. apply map_eq_nil in Hkeys.
    destruct (contributes tz d deal) eqn:Hc; [|reflexivity].
    assert (In deal (filter (contributes tz d) deals)) as Hmem
      by (apply filter_In; now split).
    rewrite Hkeys in Hmem. contradiction.
  - intros Hnone.
    assert (filter (contributes tz d) deals = []) as Hfilter.
    { destruct (filter (contributes tz d) deals) as [|deal rest] eqn:Hf; [reflexivity|].
      assert (In deal (filter (contributes tz d) deals)) as Hmem
        by (rewrite Hf; now left).
      apply filter_In in Hmem as [Hin Hc]. rewrite (Hnone deal Hin) in Hc.
      discriminate. }
    rewrite Hfilter in Hkeys. now apply map_eq_nil in Hkeys.
Qed.

Lemma X13_empty_result_witness :
  evaluation_date utc (at_six a_day) a_day /\
  aggregate utc (at_six a_day) [deal_on (a_day - 1) 2 1500; deal_on a_day 0 7] = Ok [] /\
  ([] = @nil (value * Z) <->
   forall deal, In deal [deal_on (a_day - 1) 2 1500; deal_on a_day 0 7] ->
                contributes utc a_day deal = false).
Proof.
  assert (evaluation_date utc (at_six a_day) a_day) as Hd by (intro n; reflexivity).
  split; [exact Hd|]. split; [reflexivity|].
  apply (X13_empty_result_iff_no_deal_of_the_day utc (at_six a_day) a_day _ _ Hd).
  reflexivity.
Defined.

(** X14. A deal that passes the guard but was created on another day than
    the evaluation date is ignored altogether, even if its owner is
    unhashable or its price is not a number: the result is the one of the
    list without it. *)
Theorem X14_deal_of_another_day_is_ignored tz clock d deal cd before after :
  evaluation_date tz clock d ->
  is_dict deal = true ->
  guarded deal = true ->
  fromtimestamp_date tz (created_at_of deal) = Ok cd ->
  cd <> d ->
  aggregate tz clock (before ++ deal :: after) = aggregate tz clock (before ++ after).
Proof.
  intros Hd Hdict Hguard Hts Hne.
  rewrite !(aggregate_replay tz clock d _ Hd), !replay_app.
  destruct (replay tz d before []) as [m|e]; [|reflexivity].
  cbn [bind replay].
  assert (outcome tz d deal = Ok None) as ->; [|reflexivity].
  destruct deal as [| | | | |entries]; try discriminate.
  unfold outcome. unfold guarded in Hguard. rewrite Hguard, Hts. cbn [bind].
  now rewrite (proj2 (Z.eqb_neq cd d) Hne).
Qed.

Lemma X14_deal_of_another_day_witness :
  evaluation_date utc (at_six a_day) a_day /\
  aggregate utc (at_six a_day)
    ([deal_on a_day 1 1000]
     ++ deal_of (VInt ((a_day - 1) * 86400)) (VList [VInt 2]) (VStr "n/a")
     :: [deal_on a_day 1 5])
  = aggregate utc (at_six a_day) ([deal_on a_day 1 1000] ++ [deal_on a_day 1 5]).
Proof.
  assert (evaluation_date utc (at_six a_day) a_day) as Hd by (intro n; reflexivity).
  split; [exact Hd|].
  apply (X14_deal_of_another_day_is_ignored utc (at_six a_day) a_day
           (deal_of (VInt ((a_day - 1) * 86400)) (VList [VInt 2]) (VStr "n/a"))
           (a_day - 1) _ _ Hd); try reflexivity.
  intros H. discriminate H.
Defined.

(** X15. [date.today()] is read once for every deal that passes the guard
    [if created_at and responsible_user_id], and never for the others: a
    loop that ends without raising has read the clock as many times as the
    list has such deals. *)
Theorem X15_clock_read_once_per_guarded_deal tz clock deals :
  forall n m n' m',
    for_each_deal tz clock deals (n, m) = Ok (n', m') ->
    n' = (n + List.length (filter guarded deals))%nat.
Proof.
  induction deals as [|deal rest IH]; intros n m n' m' Hrun.
  - injection Hrun as <- _. simpl. lia.
  - cbn [for_each_deal] in Hrun.
    destruct (process_deal tz clock (n, m) deal) as [[n1 m1]|e] eqn:Hstep;
      [|discriminate].
    cbn [bind] in Hrun. apply IH in Hrun. apply process_deal_reads in Hstep.
    cbn [filter]. destruct (guarded deal); subst; simpl; lia.
Qed.

Lemma X15_clock_read_once_per_guarded_deal_witness :
  for_each_deal utc (at_six a_day)
    [deal_on a_day 1 1000; deal_on a_day 0 7; deal_on (a_day - 1) 2 1500] (O, [])
  = Ok (2%nat, [(VInt 1, 1000)]) /\
  2%nat = Nat.add O (List.length (filter guarded
             [deal_on a_day 1 1000; deal_on a_day 0 7; deal_on (a_day - 1) 2 1500])).
Proof.
  split; [reflexivity|].
  apply (X15_clock_read_once_per_guarded_deal utc (at_six a_day) _ O [] 2%nat
           [(VInt 1, 1000)]).
  reflexivity.
Defined.

(** ** The request *)

Lemma string_length_append (a b : string) :
  String.length (a ++ b) = (String.length a + String.length b)%nat.
Proof. induction a as [|c a IH]; simpl; [reflexivity | now rewrite IH]. Qed.

Lemma append_cancel_l (p a b : string) : (p ++ a = p ++ b)%string -> a = b.
Proof.
  induction p as [|c p IH]; simpl; intros H; [exact H|].
  injection H as H. now apply IH.
Qed.

Lemma append_cancel_r (a b q : string) : (a ++ q = b ++ q)%string -> a = b.
Proof.
  revert b. induction a as [|c a IH]; intros b H.
  - destruct b as [|c' b]; [reflexivity|].
    apply (f_equal String.length) in H. simpl in H.
    rewrite string_length_append in H. lia.
  - destruct b as [|c' b].
    + apply (f_equal String.length) in H. simpl in H.
      rewrite string_length_append in H. lia.
    + simpl in H. injection H as -> H. f_equal. now apply IH.
Qed.

(** X16. The request goes to the leads endpoint of the account and carries
    the token: different account ids give different URLs, different tokens
    give different headers, and the result of [get_leads_from_amocrm]
    depends on the transport through the answer to that one request only. *)
Theorem X16_request_names_account_and_token :
  (forall account account', leads_url account = leads_url account' -> account = account') /\
  (forall tok tok', leads_headers tok = leads_headers tok' -> tok = tok') /\
  (forall get get' account tok,
     get (leads_url account) (leads_headers tok) =
     get' (leads_url account) (leads_headers tok) ->
     get_leads_from_amocrm get account tok = get_leads_from_amocrm get' account tok).
Proof.
  split; [|split].
  - intros account account' H. unfold leads_url in H.
    apply append_cancel_l in H. now apply append_cancel_r in H.
  - intros tok tok' H. unfold leads_headers in H. injection H as H. exact H.
  - intros get get' account tok H. unfold get_leads_from_amocrm. now rewrite H.
Qed.

Lemma get_leads_from_amocrm_frame get get' account tok :
  get (leads_url account) (leads_headers tok) =
  get' (leads_url account) (leads_headers tok) ->
  get_leads_from_amocrm get account tok = get_leads_from_amocrm get' account tok.
Proof. intros H. unfold get_leads_from_amocrm. now rewrite H. Qed.

(** X17. A whole run of [main] depends on the network through one request
    only: two transports that answer alike to the GET of
    https://ACCOUNT_ID.amocrm.ru/api/v4/leads with the bearer token
    TOKEN_AMOCRM lead to the same messages and the same end of [main]. *)
Theorem X17_main_makes_one_request env get get' bot zone time account tok :
  env "ACCOUNT_ID" = Some account ->
  env "TOKEN_AMOCRM" = Some tok ->
  get (leads_url account) (leads_headers tok) =
  get' (leads_url account) (leads_headers tok) ->
  main (world_in env get bot zone time) = main (world_in env get' bot zone time).
Proof.
  intros Ha Ht Hget.
  assert (forall n, daily_report_revenue (world_in env get bot zone time) n =
                    daily_report_revenue (world_in env get' bot zone time) n) as Hrev.
  { intros n. unfold daily_report_revenue. cbn [load_amocrm requests_get tz clock world_in].
    unfold config_amocrm.load_amocrm. rewrite Ha, Ht. cbn [account_id token].
    now rewrite (get_leads_from_amocrm_frame get get' account tok Hget). }
  unfold main, main_body. rewrite Hrev. reflexivity.
Qed.

Lemma X17_main_makes_one_request_witness :
  main (world_in full_env
          (fun url _ => if (url =? "https://shop.amocrm.ru/api/v4/leads")%string
                        then Ok {| status_code := 200; body := Some (leads_body []) |}
                        else Raise OtherError)
          (fun _ => Ok tt) utc (at_six a_day))
  = main (world_in full_env
            (fun _ _ => Ok {| status_code := 200; body := Some (leads_body []) |})
            (fun _ => Ok tt) utc (at_six a_day)).
Proof.
  apply (X17_main_makes_one_request full_env _ _ _ _ _ "shop" "secret"); reflexivity.
Defined.

(** ** Prices with a fraction: agreement with the loop over [value] *)

Lemma lookup_lift (k : value) (m : revenue) :
  Fractions.lookup k (Fractions.lift m) = option_map Fractions.NInt (lookup k m).
Proof.
  induction m as [|[k0 v0] rest IH]; simpl; [reflexivity|].
  destruct (key_eqb k0 k); [reflexivity|exact IH].
Qed.

Lemma setitem_lift (k : value) (v : Z) (m : revenue) :
  Fractions.setitem k (Fractions.NInt v) (Fractions.lift m) =
  Fractions.lift (setitem k v m).
Proof.
  induction m as [|[k0 v0] rest IH]; simpl; [reflexivity|].
  destruct (key_eqb k0 k); simpl; [reflexivity|]. now rewrite IH.
Qed.

Lemma add_whole (total : Z) (p : value) :
  Fractions.add (Fractions.NInt total) (Fractions.Whole p) =
  (x <- int_add total p ;; Ok (Fractions.NInt x)).
Proof. now destruct p. Qed.

Lemma process_deal_whole tz clock n m deal :
  Fractions.process_deal tz clock (n, Fractions.lift m) (Fractions.whole deal) =
  (st <- process_deal tz clock (n, m) deal ;; Ok (fst st, Fractions.lift (snd st))).
Proof.
  unfold Fractions.process_deal, process_deal.
  cbn [Fractions.fields Fractions.fraction Fractions.whole].
  destruct deal as [| | | | |entries]; try reflexivity.
  destruct (truthy (dict_get entries "created_at" VNone)
            && truthy (dict_get entries "responsible_user_id" VNone)); [|reflexivity].
  destruct (fromtimestamp_date tz (dict_get entries "created_at" VNone)) as [cd|e];
    [|reflexivity].
  cbn [bind]. destruct (date_today tz clock n) as [today|e]; [|reflexivity].
  cbn [bind]. destruct (cd =? today); [|reflexivity].
  unfold Fractions.contains, contains.
  destruct (hashable (dict_get entries "responsible_user_id" VNone)); [|reflexivity].
  cbn [bind]. rewrite lookup_lift.
  set (k := dict_get entries "responsible_user_id" VNone).
  set (p := dict_get entries "price" (VInt 0)).
  assert (forall m0,
    (total <- Fractions.getitem k (Fractions.lift m0) ;;
     total' <- Fractions.add total (Fractions.Whole p) ;;
     Ok (S n, Fractions.setitem k total' (Fractions.lift m0))) =
    (st <- (total <- getitem k m0 ;; total' <- int_add total p ;;
            Ok (S n, setitem k total' m0)) ;;
     Ok (fst st, Fractions.lift (snd st)))) as Hstep.
  { intros m0. unfold Fractions.getitem, getitem. rewrite lookup_lift.
    destruct (lookup k m0) as [v|]; [|reflexivity].
    cbn [option_map bind]. rewrite add_whole.
    destruct (int_add v p) as [x|e]; [|reflexivity].
    cbn [bind fst snd]. now rewrite setitem_lift. }
  destruct (lookup k m) as [v|]; cbn [option_map].
  - apply Hstep.
  - rewrite setitem_lift. apply Hstep.
Qed.

Lemma for_each_deal_whole tz clock deals :
  forall n m,
    Fractions.for_each_deal tz clock (map Fractions.whole deals) (n, Fractions.lift m) =
    (st <- for_each_deal tz clock deals (n, m) ;; Ok (fst st, Fractions.lift (snd st))).
Proof.
  induction deals as [|deal rest IH]; intros n m; [reflexivity|].
  cbn [map Fractions.for_each_deal for_each_deal]. rewrite process_deal_whole.
  destruct (process_deal tz clock (n, m) deal) as [[n1 m1]|e]; [|reflexivity].
  cbn [bind fst snd]. apply IH.
Qed.

Lemma aggregate_whole tz clock deals :
  Fractions.aggregate tz clock (map Fractions.whole deals) =
  (m <- aggregate tz clock deals ;; Ok (Fractions.lift m)).
Proof.
  unfold Fractions.aggregate, aggregate.
  change (@nil (value * Fractions.number)) with (Fractions.lift []).
  rewrite for_each_deal_whole.
  now destruct (for_each_deal tz clock deals (O, [])) as [[n m]|e].
Qed.

Lemma no_fraction_whole (deals : list Fractions.deal) :
  forallb Fractions.no_fraction deals = true ->
  deals = map Fractions.whole (map Fractions.fields deals).
Proof.
  induction deals as [|[v [f|]] rest IH]; simpl; intros H; try discriminate;
    [reflexivity|].
  unfold Fractions.whole at 1. now rewrite <- IH.
Qed.

Lemma forallb_Permutation_deal (f : Fractions.deal -> bool) (l l' : list Fractions.deal) :
  Permutation l l' -> forallb f l = true -> forallb f l' = true.
Proof.
  intros Hp. rewrite !forallb_forall. intros H x Hx.
  apply H. apply Permutation_in with l'; [now apply Permutation_sym | exact Hx].
Qed.

Lemma aggregate_no_fraction tz clock deals m :
  forallb Fractions.no_fraction deals = true ->
  Fractions.aggregate tz clock deals = Ok m ->
  exists z, aggregate tz clock (map Fractions.fields deals) = Ok z /\
            m = Fractions.lift z.
Proof.
  intros Hwhole Hrun. rewrite (no_fraction_whole deals Hwhole), aggregate_whole in Hrun.
  destruct (aggregate tz clock (map Fractions.fields deals)) as [z|e]; [|discriminate].
  cbn [bind] in Hrun. injection Hrun as <-. now exists z.
Qed.

Lemma aggregate_lifted tz clock deals z :
  forallb Fractions.no_fraction deals = true ->
  aggregate tz clock (map Fractions.fields deals) = Ok z ->
  Fractions.aggregate tz clock deals = Ok (Fractions.lift z).
Proof.
  intros Hwhole Hrun. rewrite (no_fraction_whole deals Hwhole), aggregate_whole.
  now rewrite Hrun.
Qed.

(** C7 (amended). For deals whose prices are written without a fraction,
    and with the evaluation date fixed, reordering the deals leaves the
    owner-to-revenue mapping unchanged. *)
Theorem C7_aggregate_permutation tz clock d deals deals' m :
  evaluation_date tz clock d ->
  forallb Fractions.no_fraction deals = true ->
  Permutation deals deals' ->
  Fractions.aggregate tz clock deals = Ok m ->
  exists m',
    Fractions.aggregate tz clock deals' = Ok m' /\
    forall k, Fractions.lookup k m = Fractions.lookup k m'.
Proof.
  intros Hd Hwhole Hp Hrun.
  pose proof (forallb_Permutation_deal _ _ _ Hp Hwhole) as Hwhole'.
  destruct (aggregate_no_fraction tz clock deals m Hwhole Hrun) as (z & Hz & ->).
  destruct (aggregate_permutation tz clock d _ (map Fractions.fields deals') z Hd
              (Permutation_map Fractions.fields Hp) Hz) as (z' & Hz' & Hsame).
  exists (Fractions.lift z'). split.
  - now apply aggregate_lifted.
  - intros k. now rewrite !lookup_lift, (Hsame k).
Qed.

Lemma C7_aggregate_permutation_witness :
  evaluation_date utc (at_six a_day) a_day /\
  exists m',
    Fractions.aggregate utc (at_six a_day)
      [Fractions.whole (deal_on a_day 1 1500); Fractions.whole (deal_on a_day 2 1000)]
    = Ok m' /\
    forall k,
      Fractions.lookup k [(VInt 2, Fractions.NInt 1000); (VInt 1, Fractions.NInt 1500)] =
      Fractions.lookup k m'.
Proof.
  assert (evaluation_date utc (at_six a_day) a_day) as Hd by (intro n; reflexivity).
  split; [exact Hd|].
  apply (C7_aggregate_permutation utc (at_six a_day) a_day
           [Fractions.whole (deal_on a_day 2 1000); Fractions.whole (deal_on a_day 1 1500)]
           _ _ Hd).
  - reflexivity.
  - apply perm_swap.
  - reflexivity.
Defined.

(** C7 fails as stated: three deals of today for one owner with the prices
    0.1, 0.2 and 0.3 give the total 0.6000000000000001, and the same deals
    in the reverse order give 0.6, because each [+=] rounds. *)
Lemma C7_counterexample :
  evaluation_date utc (at_six a_day) a_day /\
  Permutation
    [Fractions.deal_on a_day 0.1%float; Fractions.deal_on a_day 0.2%float; Fractions.deal_on a_day 0.3%float]
    [Fractions.deal_on a_day 0.3%float; Fractions.deal_on a_day 0.2%float; Fractions.deal_on a_day 0.1%float] /\
  Fractions.aggregate utc (at_six a_day)
    [Fractions.deal_on a_day 0.1%float; Fractions.deal_on a_day 0.2%float; Fractions.deal_on a_day 0.3%float]
  = Ok [(VInt 1, Fractions.NFloat 0.6000000000000001%float)] /\
  Fractions.aggregate utc (at_six a_day)
    [Fractions.deal_on a_day 0.3%float; Fractions.deal_on a_day 0.2%float; Fractions.deal_on a_day 0.1%float]
  = Ok [(VInt 1, Fractions.NFloat 0.6%float)] /\
  PrimFloat.eqb 0.6000000000000001%float 0.6%float = false.
Proof.
  split; [intro n; reflexivity|]. split.
  - change [Fractions.deal_on a_day 0.3%float; Fractions.deal_on a_day 0.2%float;
            Fractions.deal_on a_day 0.1%float]
      with (rev [Fractions.deal_on a_day 0.1%float; Fractions.deal_on a_day 0.2%float;
                 Fractions.deal_on a_day 0.3%float]).
    apply Permutation_rev.
  - repeat split; reflexivity.
Qed.

Lemma forallb_and (f g : Fractions.deal -> bool) (l : list Fractions.deal) :
  forallb (fun x => f x && g x) l = true ->
  forallb f l = true /\ forallb g l = true.
Proof.
  induction l as [|x rest IH]; simpl; intros H; [now split|].
  apply andb_prop in H as [Hx Hrest]. apply andb_prop in Hx as [-> ->].
  destruct (IH Hrest) as [-> ->]. now split.
Qed.

(** X9. Deals whose price is written without a fraction and that are dicts
    which either fail the guard or have a [created_at] that [fromtimestamp]
    accepts, a hashable owner and an int or bool price never make the
    aggregation raise, at whatever times the clock is read: a dict is
    returned. *)
Theorem X9_well_formed_deals_never_raise tz clock deals :
  clock_in_range tz clock ->
  forallb (fun x => Fractions.no_fraction x && well_formed tz (Fractions.fields x)) deals
  = true ->
  exists m, Fractions.aggregate tz clock deals = Ok m.
Proof.
  intros Hclock Hall. apply forallb_and in Hall as [Hwhole Hwf].
  assert (forallb (well_formed tz) (map Fractions.fields deals) = true) as Hwf'.
  { clear Hwhole. induction deals as [|x rest IH]; simpl in *; [reflexivity|].
    apply andb_prop in Hwf as [-> Hrest]. now apply IH. }
  destruct (well_formed_aggregate tz clock _ Hclock Hwf') as [z Hz].
  exists (Fractions.lift z). now apply aggregate_lifted.
Qed.

Lemma X9_well_formed_deals_never_raise_witness :
  clock_in_range utc (first_and_last_second a_day) /\
  exists m,
    Fractions.aggregate utc (first_and_last_second a_day)
      [Fractions.whole (deal_on a_day 1 1000);
       Fractions.whole (deal_of (VInt 0) (VList []) (VStr "x"));
       Fractions.whole (deal_on (a_day + 1) 2 5)] = Ok m.
Proof.
  assert (clock_in_range utc (first_and_last_second a_day)) as Hclock.
  { intro n. exists a_day. unfold date_today, first_and_last_second.
    destruct (Nat.even n); reflexivity. }
  split; [exact Hclock|].
  apply (X9_well_formed_deals_never_raise utc _ _ Hclock). reflexivity.
Defined.

(** X12. For deals whose prices are written without a fraction the totals
    of two deal lists add up: when both lists aggregate to a dict on the
    same evaluation date, the totals are ints, the concatenation aggregates
    to a dict as well, and each owner's total there is the sum of the
    owner's totals in the two parts (an owner missing from one part counts
    for nothing there). *)
Theorem X12_aggregate_of_concatenation tz clock d deals1 deals2 m1 m2 :
  evaluation_date tz clock d ->
  forallb Fractions.no_fraction deals1 = true ->
  forallb Fractions.no_fraction deals2 = true ->
  Fractions.aggregate tz clock deals1 = Ok m1 ->
  Fractions.aggregate tz clock deals2 = Ok m2 ->
  exists z1 z2 z,
    m1 = Fractions.lift z1 /\ m2 = Fractions.lift z2 /\
    Fractions.aggregate tz clock (deals1 ++ deals2) = Ok (Fractions.lift z) /\
    forall k, lookup k z = add_totals (lookup k z1) (lookup k z2).
Proof.
  intros Hd Hw1 Hw2 H1 H2.
  destruct (aggregate_no_fraction tz clock deals1 m1 Hw1 H1) as (z1 & Hz1 & ->).
  destruct (aggregate_no_fraction tz clock deals2 m2 Hw2 H2) as (z2 & Hz2 & ->).
  destruct (aggregate_of_concatenation tz clock d _ _ z1 z2 Hd Hz1 Hz2) as (z & Hz & Hsum).
  exists z1, z2, z. repeat split; try assumption.
  apply aggregate_lifted.
  - rewrite forallb_app. now rewrite Hw1, Hw2.
  - now rewrite map_app.
Qed.

Lemma X12_aggregate_of_concatenation_witness :
  evaluation_date utc (at_six a_day) a_day /\
  exists z1 z2 z,
    [(VInt 1, Fractions.NInt 1000); (VInt 2, Fractions.NInt 5)] = Fractions.lift z1 /\
    [(VInt 3, Fractions.NInt 7); (VInt 1, Fractions.NInt 1)] = Fractions.lift z2 /\
    Fractions.aggregate utc (at_six a_day)
      ([Fractions.whole (deal_on a_day 1 1000); Fractions.whole (deal_on a_day 2 5)] ++
       [Fractions.whole (deal_on a_day 3 7); Fractions.whole (deal_on a_day 1 1)])
    = Ok (Fractions.lift z) /\
    forall k, lookup k z = add_totals (lookup k z1) (lookup k z2).
Proof.
  assert (evaluation_date utc (at_six a_day) a_day) as Hd by (intro n; reflexivity).
  split; [exact Hd|].
  apply (X12_aggregate_of_concatenation utc (at_six a_day) a_day _ _ _ _ Hd);
    reflexivity.
Defined.
